(** * A shallow embedding of the REST session core of the Huawei OceanStor
    Manila driver ([Manila/Rocky/helper.py], class [RestHelper]).

    The helper is stateful Python: it holds a base URL ([self.url]) and a
    [requests.Session] whose headers carry the auth token ([iBaseToken]),
    issues HTTP requests, and signals failures by raising.  We model it with
    an explicit state record and a small state-and-exception monad: a
    computation maps a state to a result ([Ok] or a raised [Err]) together
    with the state reached, so state changes made before a raise are kept,
    as in Python.

    The remote array is an oracle [net]: the [n]-th request issued gets the
    outcome [net n req].  Every request is appended to a trace kept in the
    state, so statements can count and inspect the requests issued.

    The values of the [constants] module are kept abstract (section
    variables), so every theorem holds for any choice of them.  Reader-writer
    locking and the semaphore only order concurrent calls; the embedding is
    of one thread of control. *)

From Stdlib Require Import String List ZArith Bool Lia.
Import ListNotations.
Open Scope Z_scope.

(** ** Data *)

(** HTTP methods used by the helper ([getattr(self.session, method.lower())]). *)
Inductive method := GET | POST | PUT | DELETE.

(** A request dict: the [data] argument, a JSON object as key/value pairs. *)
Definition dict := list (string * string).

(** The ['data'] member of a response: only the fields the core reads. *)
Record edata := mkData {
  deviceid : option string;
  iBaseToken : option string;
  accountstate : option Z
}.

(** A result envelope [{"error": {"code", "description"}, "data"?}]. *)
Record envelope := mkEnv {
  code : Z;
  description : string;
  data : option edata
}.

(** One HTTP request as it leaves the client. *)
Record request := mkReq {
  req_url : string;
  req_method : method;
  req_body : option dict;        (* [kwargs['data']], only if [data] truthy *)
  req_timeout : Z;
  req_token : option string      (* the [iBaseToken] header of the session *)
}.

(** What the transport does with a request: raise (connection refused, DNS
    failure, timeout, ...), or deliver a response with a status and a body,
    [None] when the body is not valid JSON. *)
Inductive outcome :=
| ORaise
| OResp (status : Z) (body : option envelope).

(** Python exceptions that can leave the core. *)
Inductive exc :=
| ShareBackendException (msg : string)
| TransportError          (* raised by [requests] while sending *)
| JSONDecodeError         (* raised by [res.json()] *)
| TypeError               (* e.g. [None + str] *)
| AttributeError          (* e.g. [None.headers] *)
| Base64Error.            (* [base64.b64decode] on malformed input *)

(** The [requests.Session] object: only its token header matters here. *)
Record session_t := mkSession { token : option string }.

Record state := mkSt {
  url : option string;
  session : option session_t;
  trace : list request;
  sessions_opened : nat
}.

(** ** The state-and-exception monad *)

Inductive result (A : Type) := Ok (a : A) | Err (e : exc).
Arguments Ok {A} a.
Arguments Err {A} e.

Definition M (A : Type) := state -> result A * state.

Definition ret {A} (a : A) : M A := fun s => (Ok a, s).
Definition raise {A} (e : exc) : M A := fun s => (Err e, s).
Definition bind {A B} (m : M A) (k : A -> M B) : M B :=
  fun s => match m s with
           | (Ok a, s') => k a s'
           | (Err e, s') => (Err e, s')
           end.
(** [try: m except Exception as err: h err] *)
Definition try_except {A} (m : M A) (h : exc -> M A) : M A :=
  fun s => match m s with
           | (Ok a, s') => (Ok a, s')
           | (Err e, s') => h e s'
           end.
Definition get : M state := fun s => (Ok s, s).

Notation "x <- m ;; k" := (bind m (fun x => k))
  (at level 61, m at next level, right associativity).
Notation "m ;;; k" := (bind m (fun _ : unit => k))
  (at level 61, right associativity).

Definition set_url (u : option string) : M unit :=
  fun s => (Ok tt, mkSt u (session s) (trace s) (sessions_opened s)).

(** Python truthiness of [self.url] ([None] and [""] are false). *)
Definition truthy (u : option string) : bool :=
  match u with Some s => negb (String.eqb s "") | None => false end.

Definition _error_code (r : envelope) : Z := code r.

(** [result.get('data', {}).get(field)] *)
Definition get_data {X} (f : edata -> option X) (r : envelope) : option X :=
  match data r with Some d => f d | None => None end.

Definition dict_truthy (d : dict) : bool :=
  match d with [] => false | _ => true end.

Definition opt_eqb (a b : option string) : bool :=
  match a, b with
  | Some x, Some y => String.eqb x y
  | None, None => true
  | _, _ => false
  end.

(** [x in lst] for a list of integer codes. *)
Definition in_codes (x : Z) (lst : list Z) : bool := existsb (Z.eqb x) lst.

(** The values of the driver's [constants] module that the core reads. *)
Record constants := mkConstants {
  ERROR_CONNECT_TO_SERVER : Z;
  ERROR_UNAUTHORIZED_TO_SERVER : Z;
  RELOGIN_ERROR_CODE : list Z;
  RELOGIN_ERROR_PASS : Z;
  PWD_EXPIRED_OR_INITIAL : list Z;
  SOCKET_TIMEOUT : Z;
  LOGIN_SOCKET_TIMEOUT : Z
}.

(** ** [RestHelper] *)

Module RestHelper.

Section Core.

Variable K : constants.
(** The remote side: outcome of the [n]-th request issued. *)
Variable net : nat -> request -> outcome.
(** [six.text_type(exc)] of the [HTTPError] for a status and a URL. *)
Variable http_error_text : Z -> string -> string.
(** [base64.b64decode(x).decode()], [None] when it raises. *)
Variable b64decode : string -> option string.
(** The constructor's arguments kept on [self]. *)
Variable nas_address : list string.
Variable nas_username nas_password : string.

(** [RestHelper.__init__]: no URL, no session. *)
Definition init_state : state := mkSt None None [] 0.

(** [init_http_head]: drop the URL, open a fresh session without token. *)
Definition init_http_head : M unit :=
  fun s => (Ok tt, mkSt None (Some (mkSession None)) (trace s)
                        (S (sessions_opened s))).

(** [self.session.headers['iBaseToken'] = t] *)
Definition set_token (t : option string) : M unit :=
  fun s => match session s with
           | None => (Err AttributeError, s)
           | Some _ => (Ok tt, mkSt (url s) (Some (mkSession t)) (trace s)
                                    (sessions_opened s))
           end.

Definition connect_error : envelope :=
  mkEnv (ERROR_CONNECT_TO_SERVER K) "Connect server error" None.

Definition unauthorized : envelope :=
  mkEnv (ERROR_UNAUTHORIZED_TO_SERVER K) "unauthorized." None.

(** [do_call]: [self.url + postfix_url], send with the session, turn any
    exception of the send into the connect-failure envelope, turn the
    statuses [raise_for_status] rejects (400 to 599) into an envelope
    carrying the status, and otherwise return [res.json()], which raises
    on a body that is not JSON. *)
Definition do_call (postfix_url : string) (m : method) (d : dict)
    (timeout : Z) : M envelope :=
  fun s =>
    match url s with
    | None => (Err TypeError, s)
    | Some u =>
      let full := (u ++ postfix_url)%string in
      match session s with
      | None => (Err AttributeError, s)
      | Some ss =>
        let req := mkReq full m (if dict_truthy d then Some d else None)
                         timeout (token ss) in
        let s' := mkSt (url s) (session s) (trace s ++ [req])
                       (sessions_opened s) in
        match net (length (trace s)) req with
        | ORaise => (Ok connect_error, s')
        | OResp st body =>
          if (400 <=? st) && (st <? 600)
          then (Ok (mkEnv st (http_error_text st full) None), s')
          else match body with
               | Some e => (Ok e, s')
               | None => (Err JSONDecodeError, s')
               end
        end
      end
    end.

(** [_assert_result] (the message is the format string; the result text
    appended to it is not modelled). *)
Definition _assert_result (r : envelope) (format_str : string) : M unit :=
  if negb (_error_code r =? 0) then raise (ShareBackendException format_str)
  else ret tt.

(** One credential of [_get_user_info]. *)
Definition decode_credential (x : string) : M string :=
  if String.prefix "!$$$" x then
    match b64decode (substring 4 (String.length x - 4) x) with
    | Some y => ret y
    | None => raise Base64Error
    end
  else ret x.

Definition _get_user_info : M (string * string) :=
  username <- decode_credential nas_username ;;
  password <- decode_credential nas_password ;;
  ret (username, password).

Definition logout : M unit :=
  s <- get ;;
  if truthy (url s) then
    r <- do_call "/sessions" DELETE [] (SOCKET_TIMEOUT K) ;;
    _assert_result r "Logout session error."
  else ret tt.

Definition login_data (username password : string) : dict :=
  [("username", username); ("password", password); ("scope", "0")]%string.

Definition pwd_expired (r : envelope) : bool :=
  match get_data accountstate r with
  | Some a => in_codes a (PWD_EXPIRED_OR_INITIAL K)
  | None => false
  end.

Definition all_fail_msg : string := "All url login fail.".
Definition pwd_expired_msg : string :=
  "Password has expired or initial, please change the password.".

(** The [for item_url in self.nas_address: ... else: raise] loop. *)
Fixpoint login_loop (username password : string) (addrs : list string)
    : M unit :=
  match addrs with
  | [] => raise (ShareBackendException all_fail_msg)
  | item_url :: rest =>
    init_http_head ;;;
    set_url (Some item_url) ;;;
    r <- do_call "xx/sessions" POST (login_data username password)
                 (LOGIN_SOCKET_TIMEOUT K) ;;
    if negb (_error_code r =? 0) then login_loop username password rest
    else
      match get_data deviceid r with
      | None => raise TypeError              (* [item_url + None] *)
      | Some dev =>
        set_url (Some (item_url ++ dev)%string) ;;;
        set_token (get_data iBaseToken r) ;;;
        if pwd_expired r then
          logout ;;; raise (ShareBackendException pwd_expired_msg)
        else ret tt
      end
  end.

Definition login : M unit :=
  c <- _get_user_info ;;
  login_loop (fst c) (snd c) nas_address.

Definition relogin (old_token : option string) : M bool :=
  s <- get ;;
  match url s with
  | None => try_except (login ;;; ret true) (fun _ => ret false)
  | Some _ =>
    match session s with
    | None => raise AttributeError
    | Some ss =>
      if opt_eqb old_token (token ss) then
        try_except logout (fun _ => ret tt) ;;;
        try_except (login ;;; ret true) (fun _ => ret false)
      else ret true
    end
  end.

(** The first, read-locked part of [call]: the old token and the result. *)
Definition call_first (u : string) (m : method) (d : dict) (timeout : Z)
    : M (option string * envelope) :=
  s <- get ;;
  if truthy (url s) then
    match session s with
    | None => raise AttributeError
    | Some ss =>
      r <- do_call u m d timeout ;;
      ret (token ss, r)
    end
  else ret (None, unauthorized).

(** The rest of [call]: relogin and retry once on a re-login code. *)
Definition call_rest (u : string) (m : method) (d : dict) (timeout : Z)
    (old_token : option string) (r : envelope) : M envelope :=
  if in_codes (_error_code r) (RELOGIN_ERROR_CODE K) then
    ok <- relogin old_token ;;
    if ok then
      r2 <- do_call u m d timeout ;;
      if _error_code r2 =? RELOGIN_ERROR_PASS K
      then ret (mkEnv 0 (description r2) (data r2))
      else ret r2
    else ret r
  else ret r.

(** [call(url, method, data, timeout=...)]. *)
Definition call (u : string) (m : method) (d : dict) (timeout : Z)
    : M envelope :=
  p <- call_first u m d timeout ;;
  call_rest u m d timeout (fst p) (snd p).

End Core.

End RestHelper.
Import RestHelper.

(** ** [_get_info_by_range] *)

Section Pager.

Context {A P : Type}.
Variable MAX_QUERY_COUNT : nat.

(** The [while True] loop, with a fuel bound for its possible divergence;
    returns the windows [(range_start, range_end)] passed to [func] and the
    accumulated list. *)
Fixpoint info_by_range_loop (fuel : nat) (func : nat -> nat -> P -> list A)
    (params : P) (range_start : nat) (info_list : list A)
    : option (list (nat * nat) * list A) :=
  match fuel with
  | O => None
  | S fuel' =>
    let range_end := (range_start + MAX_QUERY_COUNT)%nat in
    let info := func range_start range_end params in
    let info_list' := info_list ++ info in
    if Nat.ltb (length info) MAX_QUERY_COUNT then
      Some ([(range_start, range_end)], info_list')
    else
      match info_by_range_loop fuel' func params
              (range_start + MAX_QUERY_COUNT) info_list' with
      | Some (ws, l) => Some ((range_start, range_end) :: ws, l)
      | None => None
      end
  end.

Definition _get_info_by_range (fuel : nat) (func : nat -> nat -> P -> list A)
    (params : P) : option (list (nat * nat) * list A) :=
  info_by_range_loop fuel func params 0 [].

End Pager.

(** ** Resource operations of [RestHelper]

    The resource operations sit on [call] and add one more exception of
    their own, [exception.InvalidInput].  [delete_replication_pair] calls
    itself without bound; its recursion is given a fuel argument here, and
    [OutOfFuel] marks a run that recursed deeper than the fuel allowed.  It
    is not a Python outcome: what the interpreter does when its recursion
    limit is hit (a [RecursionError] raised in some frame below, possibly
    caught by [do_call]'s handler) is not modelled. *)

Inductive domain_exc :=
| Backend (e : exc)               (* raised by the session core *)
| InvalidInput (reason : string)
| OutOfFuel.

Inductive dresult (A : Type) := DOk (a : A) | DErr (e : domain_exc).
Arguments DOk {A} a.
Arguments DErr {A} e.

Definition DM (A : Type) := state -> dresult A * state.

Definition dret {A} (a : A) : DM A := fun s => (DOk a, s).
Definition draise {A} (e : domain_exc) : DM A := fun s => (DErr e, s).
Definition dbind {A B} (m : DM A) (k : A -> DM B) : DM B :=
  fun s => match m s with
           | (DOk a, s') => k a s'
           | (DErr e, s') => (DErr e, s')
           end.
(** A core computation inside a resource operation. *)
Definition lift {A} (m : M A) : DM A :=
  fun s => match m s with
           | (Ok a, s') => (DOk a, s')
           | (Err e, s') => (DErr (Backend e), s')
           end.

Notation "x <-- m ;;; k" := (dbind m (fun x => k))
  (at level 61, m at next level, right associativity).

(** The codes of the [constants] module the resource operations read. *)
Record domain_constants := mkDomainConstants {
  SHARE_NOT_EXIST : Z;
  FILESYSTEM_NOT_EXIST : Z;
  SNAPSHOT_NOT_EXIST : Z;
  OBJECT_NOT_EXIST : Z;
  ERROR_HYPERMETRO_NOT_EXIST : Z;
  AD_DOMAIN_NOT_EXIST : Z;
  REPLICATION_CONNECTION_NOT_NORMAL : Z;
  REPLICATION_PAIR_NOT_EXIST : Z
}.

(** [{'vstoreId': vstore_id} if vstore_id else None] *)
Definition vstore_data (vstore_id : option string) : dict :=
  if truthy vstore_id then
    match vstore_id with Some v => [("vstoreId"%string, v)] | None => [] end
  else [].

Definition _invalid_nas_protocol (share_proto : string) : string :=
  ("Invalid NAS protocol " ++ share_proto ++ ".")%string.

Module Resources.

Section Ops.

Variable K : constants.
Variable DK : domain_constants.
Variable net : nat -> request -> outcome.
Variable http_error_text : Z -> string -> string.
Variable b64decode : string -> option string.
Variable nas_address : list string.
Variable nas_username nas_password : string.
(** [json.dumps] of a list of strings. *)
Variable json_dumps : list string -> string.

(** [self.call(url, method, data)], with [do_call]'s default timeout. *)
Definition rcall (u : string) (m : method) (d : dict) : DM envelope :=
  lift (call K net http_error_text b64decode nas_address nas_username
             nas_password u m d (SOCKET_TIMEOUT K)).

Definition assert_result (r : envelope) (format_str : string) : DM unit :=
  lift (_assert_result r format_str).

(** A delete that treats the array's "does not exist" code as done. *)
Definition delete_tolerant (u : string) (d : dict) (not_exist : Z)
    (format_str : string) : DM unit :=
  result <-- rcall u DELETE d ;;;
  if _error_code result =? not_exist then dret tt
  else assert_result result format_str.

Definition delete_share (share_id share_proto : string)
    (vstore_id : option string) : DM unit :=
  if String.eqb share_proto "NFS" then
    delete_tolerant ("/NFSHARE/" ++ share_id) (vstore_data vstore_id)
      (SHARE_NOT_EXIST DK) "Delete share %s error."
  else if String.eqb share_proto "CIFS" then
    delete_tolerant ("/CIFSHARE/" ++ share_id) (vstore_data vstore_id)
      (SHARE_NOT_EXIST DK) "Delete share %s error."
  else draise (InvalidInput (_invalid_nas_protocol share_proto)).

Definition delete_filesystem (params : dict) : DM unit :=
  delete_tolerant "/filesystem" params (FILESYSTEM_NOT_EXIST DK)
    "Delete filesystem %s error.".

Definition delete_snapshot (snap_id : string) : DM unit :=
  delete_tolerant ("/FSSNAPSHOT/" ++ snap_id) [] (SNAPSHOT_NOT_EXIST DK)
    "Delete snapshot %s error.".

Definition delete_vlan (vlan_id : string) : DM unit :=
  delete_tolerant ("/vlan/" ++ vlan_id) [] (OBJECT_NOT_EXIST DK)
    "Delete vlan %s error.".

Definition delete_logical_port (logical_port_id : string) : DM unit :=
  delete_tolerant ("/LIF/" ++ logical_port_id) [] (OBJECT_NOT_EXIST DK)
    "Delete logical port %s error.".

Definition delete_ldap_config : DM unit :=
  delete_tolerant "/LDAP_CONFIG" [] (AD_DOMAIN_NOT_EXIST DK)
    "Delete LDAP config error.".

Definition delete_hypermetro_pair (pair_id : string) : DM unit :=
  delete_tolerant ("/HyperMetroPair/" ++ pair_id ++ "?isOnlineDeleting=0")
    [] (ERROR_HYPERMETRO_NOT_EXIST DK) "Delete HyperMetro pair %s error.".

Definition remove_access (access_id share_proto : string)
    (vstore_id : option string) : DM unit :=
  if String.eqb share_proto "NFS" then
    result <-- rcall ("/NFS_SHARE_AUTH_CLIENT/" ++ access_id) DELETE
                     (vstore_data vstore_id) ;;;
    assert_result result "Delete access %s error."
  else if String.eqb share_proto "CIFS" then
    result <-- rcall ("/CIFS_SHARE_AUTH_CLIENT/" ++ access_id) DELETE
                     (vstore_data vstore_id) ;;;
    assert_result result "Delete access %s error."
  else draise (InvalidInput (_invalid_nas_protocol share_proto)).

Definition delete_qos (qos_id : string) : DM unit :=
  result <-- rcall ("/ioclass/" ++ qos_id) DELETE [] ;;;
  assert_result result "Delete QoS %s error.".

Definition change_access (access_id share_proto access_level : string)
    (vstore_id : option string) : DM unit :=
  let target :=
    if String.eqb share_proto "NFS" then
      Some (("/NFS_SHARE_AUTH_CLIENT/" ++ access_id)%string,
            [("ACCESSVAL"%string, access_level)])
    else if String.eqb share_proto "CIFS" then
      Some (("/CIFS_SHARE_AUTH_CLIENT/" ++ access_id)%string,
            [("PERMISSION"%string, access_level)])
    else None in
  match target with
  | None => draise (InvalidInput (_invalid_nas_protocol share_proto))
  | Some (u, access) =>
    let access := if truthy vstore_id then access ++ vstore_data vstore_id
                  else access in
    result <-- rcall u PUT access ;;;
    assert_result result "Change access %s level to %s error."
  end.

(** [delete_replication_pair]: on a broken replication link it calls itself
    with [is_force_delete=True]; [depth] is the number of nested calls the
    run may still make. *)
Fixpoint delete_replication_pair (depth : nat) (pair_id : string)
    (is_force_delete : bool) : DM unit :=
  result <-- rcall ("/REPLICATIONPAIR/" ++ pair_id ++ "?ISLOCALDELETE=" ++
                    (if is_force_delete then "true" else "false")) DELETE [] ;;;
  if _error_code result =? REPLICATION_CONNECTION_NOT_NORMAL DK then
    match depth with
    | O => draise OutOfFuel
    | S depth' => delete_replication_pair depth' pair_id true
    end
  else if _error_code result =? REPLICATION_PAIR_NOT_EXIST DK then dret tt
  else assert_result result "Delete replication pair %s error.".

Definition dns_limit_msg : string := "3 IPs can be set to DNS most.".

Definition set_dns_ip_address (dns_ip_list : list string) : DM unit :=
  if Nat.ltb 3 (length dns_ip_list) then draise (InvalidInput dns_limit_msg)
  else
    result <-- rcall "/DNS_Server" PUT
                     [("ADDRESS"%string, json_dumps dns_ip_list)] ;;;
    assert_result result "Set DNS ip address %s error.".

End Ops.

End Resources.
Import Resources.

(** A page-fetch function backed by a dataset: [func(start, end, params)]
    returns the items of positions [start .. end-1]. *)
Definition dataset_pages (items : list nat) (range_start range_end : nat)
    (_ : unit) : list nat :=
  firstn (range_end - range_start) (skipn range_start items).

(** ** A sample deployment, for concrete runs *)

(** Sample values for the [constants] module (arbitrary, distinct codes). *)
Definition sample_constants : constants :=
  mkConstants 1001 1002 [1002; 1003] 1004 [3; 4] 52 4.

Definition sample_error_text (st : Z) (u : string) : string :=
  "HTTP error"%string.

Definition no_base64 (x : string) : option string := None.

Definition sample_addresses : list string :=
  ["https://a/"; "https://b/"]%string.

Definition ok_env : envelope := mkEnv 0 "" None.

Definition login_ok_env (dev tok : string) (acc : Z) : envelope :=
  mkEnv 0 "" (Some (mkData (Some dev) (Some tok) (Some acc))).

(** A session logged in on endpoint [a] as device [dev1] with token [t1]. *)
Definition logged_in : state :=
  mkSt (Some "https://a/dev1"%string) (Some (mkSession (Some "t1"%string))) [] 1.

(** The array answers the first request with a re-login code, accepts the
    logout and a new login, then reports the retried action as already
    done. *)
Definition net_relogin_pass (n : nat) (_ : request) : outcome :=
  match n with
  | O => OResp 200 (Some (mkEnv 1003 "session expired" None))
  | 1%nat => OResp 200 (Some ok_env)
  | 2%nat => OResp 200 (Some (login_ok_env "dev2" "t2" 1))
  | _ => OResp 200 (Some (mkEnv 1004 "already done" None))
  end.

(** Every request rejected with a non-zero code. *)
Definition net_reject (_ : nat) (_ : request) : outcome :=
  OResp 200 (Some (mkEnv 1077949061 "rejected" None)).

(** A login that succeeds with an expired password, then anything else ok. *)
Definition net_pwd_expired (n : nat) (_ : request) : outcome :=
  match n with
  | O => OResp 200 (Some (login_ok_env "dev1" "t1" 3))
  | _ => OResp 200 (Some ok_env)
  end.

(** The array unreachable: every send raises. *)
Definition net_down (_ : nat) (_ : request) : outcome := ORaise.

(** A 300 response whose body is a success envelope. *)
Definition net_status_300 (_ : nat) (_ : request) : outcome :=
  OResp 300 (Some ok_env).

(** A 200 response whose body is not JSON. *)
Definition net_bad_json (_ : nat) (_ : request) : outcome := OResp 200 None.

(** Every request answered with the same envelope under status 200. *)
Definition net_code (c : Z) (_ : nat) (_ : request) : outcome :=
  OResp 200 (Some (mkEnv c "" None)).

(** Every request answered as a successful login of device [dev2]. *)
Definition net_fresh_login (_ : nat) (_ : request) : outcome :=
  OResp 200 (Some (login_ok_env "dev2" "t2" 1)).

(** Sample values for the resource codes of the [constants] module. *)
Definition sample_domain_constants : domain_constants :=
  mkDomainConstants 2001 2002 2003 2004 2005 2006 2007 2008.

(** The first request hits a broken replication link, the others get [c]. *)
Definition net_link_then (c : Z) (n : nat) (_ : request) : outcome :=
  match n with
  | O => OResp 200 (Some (mkEnv 2007 "" None))
  | _ => OResp 200 (Some (mkEnv c "" None))
  end.

Definition sample_json_dumps (l : list string) : string :=
  ("[" ++ String.concat ", " l ++ "]")%string.

(** ** Properties of the session core *)

(** Whether the session holds a base URL, and whether it holds a token. *)
Definition has_url (s : state) : bool :=
  match url s with Some _ => true | None => false end.
Definition has_token (s : state) : bool :=
  match session s with
  | Some ss => match token ss with Some _ => true | None => false end
  | None => false
  end.
(** The login request sent to an endpoint from a fresh session. *)
Definition login_request (K : constants) (username password item : string)
    : request :=
  mkReq (item ++ "xx/sessions") POST (Some (login_data username password))
        (LOGIN_SOCKET_TIMEOUT K) None.

(** The result is not a raised transport exception. *)
Definition not_transport {A} (r : result A) : Prop :=
  match r with Err TransportError => False | _ => True end.
(** The spec's session invariant: both present or both absent. *)
Definition session_inv (s : state) : bool := Bool.eqb (has_url s) (has_token s).

(** Logged in: a non-empty base URL [u0] and a session [ss]. *)
Definition logged_at (s : state) (u0 : string) (ss : session_t) : Prop :=
  url s = Some u0 /\ u0 <> ""%string /\ session s = Some ss.

(** The state after [do_call] has logged the request [req]. *)
Definition after_send (s : state) (req : request) : state :=
  mkSt (url s) (session s) (trace s ++ [req]) (sessions_opened s).

Section Props.

Variable K : constants.
Variable net : nat -> request -> outcome.
Variable http_error_text : Z -> string -> string.
Variable b64decode : string -> option string.
Variable nas_address : list string.
Variable nas_username nas_password : string.

Local Abbreviation do_call := (do_call K net http_error_text).
Local Abbreviation logout := (logout K net http_error_text).
Local Abbreviation login_loop := (login_loop K net http_error_text).
Local Abbreviation login :=
  (login K net http_error_text b64decode nas_address nas_username nas_password).
Local Abbreviation relogin :=
  (relogin K net http_error_text b64decode nas_address nas_username nas_password).
Local Abbreviation call_first := (call_first K net http_error_text).
Local Abbreviation call_rest :=
  (call_rest K net http_error_text b64decode nas_address nas_username nas_password).
Local Abbreviation call :=
  (call K net http_error_text b64decode nas_address nas_username nas_password).
Local Abbreviation login_request := (login_request K).

Lemma string_append_assoc (a b c : string) :
  ((a ++ b) ++ c)%string = (a ++ b ++ c)%string.
Proof.
  induction a as [|x a IH]; simpl; [reflexivity|]. rewrite IH. reflexivity.
Qed.

(** The request [do_call] sends from a state with a URL and a session. *)
Lemma do_call_sends (pu : string) (m : method) (d : dict) (t : Z) (s : state)
    (u0 : string) (ss : session_t) :
  url s = Some u0 -> session s = Some ss ->
  trace (snd (do_call pu m d t s)) =
    trace s ++ [mkReq (u0 ++ pu) m (if dict_truthy d then Some d else None)
                      t (token ss)] /\
  url (snd (do_call pu m d t s)) = url s /\
  session (snd (do_call pu m d t s)) = session s.
Proof.
  intros Hu Hs. unfold RestHelper.do_call. rewrite Hu, Hs.
  destruct (net _ _) as [|st [e|]]; simpl; auto;
    destruct ((400 <=? st) && (st <? 600)); simpl; auto.
Qed.

(** One iteration of the login loop: a fresh session with the endpoint as
    URL, the login request, then continue, fail, or take the session. *)
Lemma login_loop_cons (username password item : string) (rest : list string)
    (s : state) :
  login_loop username password (item :: rest) s =
  match do_call "xx/sessions" POST (login_data username password)
          (LOGIN_SOCKET_TIMEOUT K)
          (mkSt (Some item) (Some (mkSession None)) (trace s)
                (S (sessions_opened s))) with
  | (Ok r, s1) =>
    if negb (_error_code r =? 0) then login_loop username password rest s1
    else
      match get_data deviceid r with
      | None => (Err TypeError, s1)
      | Some dev =>
        let s2 := mkSt (Some (item ++ dev)%string)
                       (Some (mkSession (get_data iBaseToken r)))
                       (trace s1) (sessions_opened s1) in
        if pwd_expired K r then
          match logout s2 with
          | (Ok _, s3) => (Err (ShareBackendException pwd_expired_msg), s3)
          | (Err e, s3) => (Err e, s3)
          end
        else (Ok tt, s2)
      end
  | (Err e, s1) => (Err e, s1)
  end.
Proof.
  set (s0 := mkSt (Some item) (Some (mkSession None)) (trace s)
                  (S (sessions_opened s))).
  pose proof (do_call_sends "xx/sessions" POST (login_data username password)
                (LOGIN_SOCKET_TIMEOUT K) s0 item (mkSession None)
                eq_refl eq_refl) as [_ [_ Hs]].
  change (login_loop username password (item :: rest) s) with
    (bind (do_call "xx/sessions" POST (login_data username password)
             (LOGIN_SOCKET_TIMEOUT K))
       (fun r => if negb (_error_code r =? 0)
                 then login_loop username password rest
                 else match get_data deviceid r with
                      | None => raise TypeError
                      | Some dev =>
                        set_url (Some (item ++ dev)%string) ;;;
                        set_token (get_data iBaseToken r) ;;;
                        if pwd_expired K r then
                          logout ;;; raise (ShareBackendException pwd_expired_msg)
                        else ret tt
                      end) s0).
  unfold bind at 1.
  destruct (do_call _ _ _ _ s0) as [[r|e] s1]; [|reflexivity].
  simpl in Hs.
  destruct (negb (_error_code r =? 0)); [reflexivity|].
  destruct (get_data deviceid r) as [dev|]; [|reflexivity].
  unfold bind, set_url, set_token. simpl. rewrite Hs.
  destruct (pwd_expired K r); [|reflexivity].
  destruct (logout _) as [[]]; reflexivity.
Qed.

(** A login that returns normally leaves a URL and a session. *)
Lemma login_loop_ok (username password : string) (addrs : list string)
    (s s' : state) :
  login_loop username password addrs s = (Ok tt, s') ->
  exists u0 tok, url s' = Some u0 /\ session s' = Some (mkSession tok).
Proof.
  revert s. induction addrs as [|item rest IH]; intros s H.
  - discriminate H.
  - rewrite login_loop_cons in H.
    destruct (do_call _ _ _ _ _) as [[r|e] s1]; [|discriminate H].
    destruct (negb (_error_code r =? 0)); [exact (IH _ H)|].
    destruct (get_data deviceid r) as [dev|]; [|discriminate H].
    destruct (pwd_expired K r).
    + cbv zeta in H. destruct (logout _) as [[]]; discriminate H.
    + injection H as <-. simpl. eauto.
Qed.

Lemma login_ok (s s' : state) :
  login s = (Ok tt, s') ->
  exists u0 tok, url s' = Some u0 /\ session s' = Some (mkSession tok).
Proof.
  unfold RestHelper.login, bind at 1.
  destruct (_get_user_info _ _ _ _) as [[c|e] s1]; [|discriminate].
  apply login_loop_ok.
Qed.

Lemma opt_eqb_eq (a b : option string) : opt_eqb a b = true <-> a = b.
Proof.
  destruct a as [x|], b as [y|]; simpl; split; intro H; try discriminate; auto.
  - apply String.eqb_eq in H. subst. reflexivity.
  - injection H as ->. apply String.eqb_refl.
Qed.

(** [do_call] never changes the URL or the session object. *)
Lemma do_call_preserves (pu : string) (m : method) (d : dict) (t : Z)
    (s : state) :
  url (snd (do_call pu m d t s)) = url s /\
  session (snd (do_call pu m d t s)) = session s.
Proof.
  unfold RestHelper.do_call.
  destruct (url s) as [u0|] eqn:Hu; [|simpl; rewrite Hu; auto].
  destruct (session s) as [ss|] eqn:Hs; [|simpl; rewrite Hu, Hs; auto].
  destruct (net _ _) as [|st [e|]]; simpl; rewrite ?Hu, ?Hs; auto;
    destruct ((400 <=? st) && (st <? 600)); simpl; auto.
Qed.

(** [logout] with a URL: the delete request, then [_assert_result]. *)
Lemma logout_unfold (s : state) :
  truthy (url s) = true ->
  logout s =
  match do_call "/sessions" DELETE [] (SOCKET_TIMEOUT K) s with
  | (Ok r, s1) =>
    (if _error_code r =? 0 then Ok tt
     else Err (ShareBackendException "Logout session error."), s1)
  | (Err e, s1) => (Err e, s1)
  end.
Proof.
  intros Hu. unfold RestHelper.logout, bind at 1, get. rewrite Hu.
  unfold bind.
  destruct (do_call _ _ _ _ s) as [[r|e] s1]; [|reflexivity].
  unfold _assert_result, raise, ret.
  destruct (_error_code r =? 0); reflexivity.
Qed.

(** [logout] never changes the URL or the session object. *)
Lemma logout_preserves (s : state) :
  url (snd (logout s)) = url s /\ session (snd (logout s)) = session s.
Proof.
  destruct (truthy (url s)) eqn:Hu.
  - rewrite (logout_unfold s Hu).
    pose proof (do_call_preserves "/sessions" DELETE [] (SOCKET_TIMEOUT K) s)
      as Hp.
    destruct (do_call _ _ _ _ s) as [[r|e] s1]; exact Hp.
  - unfold RestHelper.logout, bind, get. rewrite Hu. split; reflexivity.
Qed.

(** When every login request is answered with a non-zero code, the loop
    tries every endpoint in order, one request each, and raises; the state
    is left with the last endpoint as URL and a fresh session. *)
Lemma login_loop_all_fail (username password : string) (addrs : list string)
    (s : state) :
  (forall item s0, In item addrs -> url s0 = Some item ->
     session s0 = Some (mkSession None) ->
     exists r s1,
     do_call "xx/sessions" POST (login_data username password)
       (LOGIN_SOCKET_TIMEOUT K) s0 = (Ok r, s1) /\ _error_code r <> 0) ->
  exists s',
    login_loop username password addrs s =
      (Err (ShareBackendException all_fail_msg), s') /\
    trace s' = trace s ++ map (login_request username password) addrs /\
    (addrs <> [] ->
     url s' = Some (last addrs ""%string) /\
     session s' = Some (mkSession None)).
Proof.
  revert s.
  induction addrs as [|item rest IH]; intros s Hfail.
  - exists s. rewrite app_nil_r. split; [reflexivity|]. split; [reflexivity|].
    intros H; contradiction.
  - rewrite login_loop_cons.
    set (s0 := mkSt (Some item) (Some (mkSession None)) (trace s)
                    (S (sessions_opened s))).
    destruct (Hfail item s0 (or_introl eq_refl) eq_refl eq_refl)
      as (r & s1 & E & Hc).
    pose proof (do_call_sends "xx/sessions" POST (login_data username password)
                  (LOGIN_SOCKET_TIMEOUT K) s0 item (mkSession None)
                  eq_refl eq_refl) as [Ht [Hu Hs]].
    rewrite E in Ht, Hu, Hs. simpl in Ht, Hu, Hs.
    rewrite E.
    apply Z.eqb_neq in Hc. rewrite Hc. simpl.
    destruct (IH s1 (fun i s2 Hi => Hfail i s2 (or_intror Hi)))
      as (s' & Hl & Ht' & Hlast).
    exists s'. split; [exact Hl|]. split.
    + rewrite Ht', Ht. simpl. rewrite <- app_assoc. reflexivity.
    + intros _. destruct rest as [|item' rest'].
      * simpl in Hl. injection Hl as <-. simpl. split; assumption.
      * apply Hlast. discriminate.
Qed.

(** [relogin] with its exception handlers evaluated. *)
Lemma relogin_unfold (old_token : option string) (s : state) :
  relogin old_token s =
  match url s with
  | None =>
    match login s with
    | (Ok _, s') => (Ok true, s')
    | (Err _, s') => (Ok false, s')
    end
  | Some _ =>
    match session s with
    | None => (Err AttributeError, s)
    | Some ss =>
      if opt_eqb old_token (token ss) then
        match login (snd (logout s)) with
        | (Ok _, s') => (Ok true, s')
        | (Err _, s') => (Ok false, s')
        end
      else (Ok true, s)
    end
  end.
Proof.
  unfold RestHelper.relogin, bind at 1, get.
  destruct (url s) as [u0|].
  - destruct (session s) as [ss|]; [|reflexivity].
    destruct (opt_eqb _ _); [|reflexivity].
    unfold bind at 1, try_except at 1.
    destruct (logout s) as [[[]|e] s1]; unfold try_except, bind, ret;
      cbn [snd]; destruct (login s1) as [[[]|e'] s2]; reflexivity.
  - unfold try_except, bind, ret.
    destruct (login s) as [[[]|e'] s2]; reflexivity.
Qed.

(** A relogin that reports success leaves a URL and a session. *)
Lemma relogin_true_sets (old_token : option string) (s s' : state) :
  relogin old_token s = (Ok true, s') ->
  exists u0 tok, url s' = Some u0 /\ session s' = Some (mkSession tok).
Proof.
  rewrite relogin_unfold.
  destruct (url s) as [u0|] eqn:Hu.
  - destruct (session s) as [[tok]|] eqn:Hs; [|discriminate].
    destruct (opt_eqb _ _).
    + destruct (login _) as [[[]|e] s2] eqn:E; intro H; [|discriminate].
      injection H as <-. eapply login_ok; eassumption.
    + intro H. injection H as <-. eauto.
  - destruct (login s) as [[[]|e] s2] eqn:E; intro H; [|discriminate].
    injection H as <-. eapply login_ok; eassumption.
Qed.

(** C2: [relogin(old_token)] is a three-way branch.  Without a URL it runs a
    full login; with a URL and the session still holding [old_token] it runs
    logout, whatever its outcome, then login; otherwise it reports success
    and leaves the state (and the network) untouched.  In the first two
    branches an exception of login or logout is caught: the result is
    [True] exactly when login returned normally, and it is never raised. *)
Theorem relogin_three_way (old_token : option string) (s : state) :
  (url s = None ->
   relogin old_token s =
     match login s with
     | (Ok _, s') => (Ok true, s')
     | (Err _, s') => (Ok false, s')
     end) /\
  (forall u0 ss, url s = Some u0 -> session s = Some ss ->
   old_token = token ss ->
   relogin old_token s =
     match login (snd (logout s)) with
     | (Ok _, s') => (Ok true, s')
     | (Err _, s') => (Ok false, s')
     end) /\
  (forall u0 ss, url s = Some u0 -> session s = Some ss ->
   old_token <> token ss ->
   relogin old_token s = (Ok true, s)).
Proof.
  rewrite relogin_unfold.
  split; [|split].
  - intros Hu. rewrite Hu. reflexivity.
  - intros u0 ss Hu Hs Ht. rewrite Hu, Hs.
    apply opt_eqb_eq in Ht. rewrite Ht. reflexivity.
  - intros u0 ss Hu Hs Ht. rewrite Hu, Hs.
    destruct (opt_eqb old_token (token ss)) eqn:E; [|reflexivity].
    apply opt_eqb_eq in E. contradiction.
Qed.

(** C7: without a base URL the first attempt of [call] synthesizes the
    [unauthorized] envelope locally: no request is issued and the state is
    untouched, and [call] goes on from that envelope with no old token. *)
Theorem call_no_url_unauthorized (u : string) (m : method) (d : dict) (t : Z)
    (s : state) :
  truthy (url s) = false ->
  call_first u m d t s = (Ok (None, unauthorized K), s) /\
  call u m d t s = call_rest u m d t None (unauthorized K) s.
Proof.
  intros Hu. unfold RestHelper.call, RestHelper.call_first, bind, get.
  rewrite Hu. split; reflexivity.
Qed.

(** C1: when the first result carries a re-login code, a relogin that
    reports success is followed by exactly one more request, the original
    one re-sent on the refreshed session, whose result is returned, with the
    [RELOGIN_ERROR_PASS] code turned into 0 and any other code left as is;
    a relogin that reports failure returns the first envelope unchanged and
    sends nothing more. *)
Theorem call_relogin_retry_once (u : string) (m : method) (d : dict) (t : Z)
    (s s1 : state) (old_token : option string) (r : envelope) :
  call_first u m d t s = (Ok (old_token, r), s1) ->
  in_codes (_error_code r) (RELOGIN_ERROR_CODE K) = true ->
  (forall s2, relogin old_token s1 = (Ok true, s2) ->
   call u m d t s =
     match do_call u m d t s2 with
     | (Ok r2, s3) =>
       (Ok (if _error_code r2 =? RELOGIN_ERROR_PASS K
            then mkEnv 0 (description r2) (data r2) else r2), s3)
     | (Err e, s3) => (Err e, s3)
     end /\
   exists u0 tok, url s2 = Some u0 /\ session s2 = Some (mkSession tok) /\
   trace (snd (call u m d t s)) =
     trace s2 ++ [mkReq (u0 ++ u) m (if dict_truthy d then Some d else None)
                        t tok]) /\
  (forall s2, relogin old_token s1 = (Ok false, s2) ->
   call u m d t s = (Ok r, s2)).
Proof.
  intros Hf Hin.
  assert (Hc : call u m d t s = call_rest u m d t old_token r s1).
  { unfold RestHelper.call, bind at 1. rewrite Hf. reflexivity. }
  rewrite Hc. unfold RestHelper.call_rest. rewrite Hin.
  split.
  - intros s2 Hr.
    assert (Heq : (ok <- relogin old_token ;;
                   if ok then
                     r2 <- do_call u m d t ;;
                     if _error_code r2 =? RELOGIN_ERROR_PASS K
                     then ret (mkEnv 0 (description r2) (data r2))
                     else ret r2
                   else ret r) s1 =
                  match do_call u m d t s2 with
                  | (Ok r2, s3) =>
                    (Ok (if _error_code r2 =? RELOGIN_ERROR_PASS K
                         then mkEnv 0 (description r2) (data r2) else r2), s3)
                  | (Err e, s3) => (Err e, s3)
                  end).
    { unfold bind at 1. rewrite Hr. unfold bind.
      destruct (do_call u m d t s2) as [[r2|e] s3]; [|reflexivity].
      destruct (_ =? _); reflexivity. }
    rewrite Heq. split; [reflexivity|].
    destruct (relogin_true_sets _ _ _ Hr) as (u0 & tok & Hu & Hs).
    exists u0, tok. split; [exact Hu|]. split; [exact Hs|].
    destruct (do_call_sends u m d t s2 u0 _ Hu Hs) as [Ht _].
    destruct (do_call u m d t s2) as [[r2|e] s3]; exact Ht.
  - intros s2 Hr. unfold bind at 1. rewrite Hr. reflexivity.
Qed.

(** C3 (as amended): the spec's invariant holds at construction and
    [logout] changes neither the URL nor the session; but [login] does not
    restore it when every endpoint of a non-empty list fails: it raises with
    the last endpoint tried as URL and a fresh session holding no token. *)
Theorem session_inv_failed_login (username password : string)
    (addrs : list string) (s : state) :
  session_inv init_state = true /\
  (url (snd (logout s)) = url s /\ session (snd (logout s)) = session s) /\
  (addrs <> [] ->
   (forall item s0, In item addrs -> url s0 = Some item ->
      session s0 = Some (mkSession None) ->
      exists r s1,
      do_call "xx/sessions" POST (login_data username password)
        (LOGIN_SOCKET_TIMEOUT K) s0 = (Ok r, s1) /\ _error_code r <> 0) ->
   exists s',
     login_loop username password addrs s =
       (Err (ShareBackendException all_fail_msg), s') /\
     url s' = Some (last addrs ""%string) /\
     session s' = Some (mkSession None) /\
     session_inv s' = false).
Proof.
  split; [reflexivity|]. split; [apply logout_preserves|].
  intros Hne Hfail.
  destruct (login_loop_all_fail username password addrs s Hfail)
    as (s' & Hl & _ & Hlast).
  destruct (Hlast Hne) as [Hu Hs].
  exists s'. split; [exact Hl|]. split; [exact Hu|]. split; [exact Hs|].
  unfold session_inv, has_url, has_token. rewrite Hu, Hs. reflexivity.
Qed.

(** C4 (as amended): with a URL, [logout] sends the session-delete request
    and raises [ShareBackendException] when its result code is non-zero;
    it returns normally only on code 0.  [relogin] with the session's own
    token catches whatever [logout] raised and goes on to [login] from the
    state [logout] left. *)
Theorem logout_raises_on_error (s s1 : state) (r : envelope) :
  truthy (url s) = true ->
  do_call "/sessions" DELETE [] (SOCKET_TIMEOUT K) s = (Ok r, s1) ->
  logout s =
    (if _error_code r =? 0 then Ok tt
     else Err (ShareBackendException "Logout session error."), s1) /\
  (forall ss, session s = Some ss ->
   relogin (token ss) s =
     match login s1 with
     | (Ok _, s') => (Ok true, s')
     | (Err _, s') => (Ok false, s')
     end).
Proof.
  intros Hu E.
  assert (Hl : logout s =
    (if _error_code r =? 0 then Ok tt
     else Err (ShareBackendException "Logout session error."), s1))
    by (rewrite (logout_unfold s Hu), E; reflexivity).
  split; [exact Hl|].
  intros ss Hs. rewrite relogin_unfold, Hs.
  destruct (url s) as [u0|] eqn:Hu0; [|discriminate Hu].
  replace (opt_eqb (token ss) (token ss)) with true
    by (symmetry; apply opt_eqb_eq; reflexivity).
  rewrite Hl. reflexivity.
Qed.

(** C5: [login] walks the endpoints in order.  Each endpoint gets a fresh
    session with no token and one login request; a non-zero code moves on
    to the next endpoint, code 0 with a device id sets the URL to endpoint
    plus device id and the token to the returned one, without touching the
    remaining endpoints; when every endpoint answers with a non-zero code,
    one request per endpoint is sent and [login] raises "All url login
    fail.". *)
Theorem login_iterates_endpoints (username password item : string)
    (rest addrs : list string) (s : state) :
  (forall r s1,
   do_call "xx/sessions" POST (login_data username password)
     (LOGIN_SOCKET_TIMEOUT K)
     (mkSt (Some item) (Some (mkSession None)) (trace s)
           (S (sessions_opened s))) = (Ok r, s1) ->
   trace s1 = trace s ++ [login_request username password item] /\
   (_error_code r <> 0 ->
    login_loop username password (item :: rest) s =
      login_loop username password rest s1) /\
   (forall dev, _error_code r = 0 -> get_data deviceid r = Some dev ->
    pwd_expired K r = false ->
    login_loop username password (item :: rest) s =
      (Ok tt, mkSt (Some (item ++ dev)%string)
                   (Some (mkSession (get_data iBaseToken r)))
                   (trace s1) (sessions_opened s1)))) /\
  ((forall item0 s0, In item0 addrs -> url s0 = Some item0 ->
      session s0 = Some (mkSession None) ->
      exists r s1,
      do_call "xx/sessions" POST (login_data username password)
        (LOGIN_SOCKET_TIMEOUT K) s0 = (Ok r, s1) /\ _error_code r <> 0) ->
   exists s',
     login_loop username password addrs s =
       (Err (ShareBackendException all_fail_msg), s') /\
     trace s' = trace s ++ map (login_request username password) addrs).
Proof.
  split.
  - intros r s1 E.
    pose proof (do_call_sends "xx/sessions" POST (login_data username password)
                  (LOGIN_SOCKET_TIMEOUT K)
                  (mkSt (Some item) (Some (mkSession None)) (trace s)
                        (S (sessions_opened s)))
                  item (mkSession None) eq_refl eq_refl) as [Ht _].
    rewrite E in Ht. simpl in Ht.
    split; [exact Ht|].
    rewrite login_loop_cons, E.
    split.
    + intros Hc. apply Z.eqb_neq in Hc. rewrite Hc. reflexivity.
    + intros dev Hc Hd Hp. rewrite Hc, Hd, Hp. reflexivity.
  - intros Hfail.
    destruct (login_loop_all_fail username password addrs s Hfail)
      as (s' & Hl & Ht & _).
    exists s'. split; assumption.
Qed.

(** C6: a successful login whose account state is expired or initial sets
    the session, logs it out (one delete request when the URL is non-empty)
    and raises: the password error when logout succeeds, logout's own error
    otherwise.  The remaining endpoints are not tried. *)
Theorem login_pwd_expired_raises (username password item dev : string)
    (rest : list string) (s s1 : state) (r : envelope) :
  do_call "xx/sessions" POST (login_data username password)
    (LOGIN_SOCKET_TIMEOUT K)
    (mkSt (Some item) (Some (mkSession None)) (trace s)
          (S (sessions_opened s))) = (Ok r, s1) ->
  _error_code r = 0 -> get_data deviceid r = Some dev ->
  pwd_expired K r = true ->
  let s2 := mkSt (Some (item ++ dev)%string)
                 (Some (mkSession (get_data iBaseToken r)))
                 (trace s1) (sessions_opened s1) in
  login_loop username password (item :: rest) s =
    match logout s2 with
    | (Ok _, s3) => (Err (ShareBackendException pwd_expired_msg), s3)
    | (Err e, s3) => (Err e, s3)
    end /\
  (exists e, fst (login_loop username password (item :: rest) s) = Err e) /\
  (truthy (Some (item ++ dev)%string) = true ->
   trace (snd (login_loop username password (item :: rest) s)) =
     trace s1 ++ [mkReq (item ++ dev ++ "/sessions") DELETE None
                        (SOCKET_TIMEOUT K) (get_data iBaseToken r)]).
Proof.
  intros E Hc Hd Hp s2.
  assert (Hl : login_loop username password (item :: rest) s =
    match logout s2 with
    | (Ok _, s3) => (Err (ShareBackendException pwd_expired_msg), s3)
    | (Err e, s3) => (Err e, s3)
    end).
  { rewrite login_loop_cons, E, Hc, Hd, Hp. reflexivity. }
  split; [exact Hl|]. split.
  - rewrite Hl. destruct (logout s2) as [[[]|e] s3]; simpl; eauto.
  - intros Hu. rewrite Hl.
    change (Some (item ++ dev)%string) with (url s2) in Hu.
    rewrite (logout_unfold s2 Hu).
    pose proof (do_call_sends "/sessions" DELETE [] (SOCKET_TIMEOUT K) s2
                  (item ++ dev) (mkSession (get_data iBaseToken r))
                  eq_refl eq_refl) as [Ht _].
    rewrite string_append_assoc in Ht.
    destruct (do_call _ _ _ _ s2) as [[r2|e] s3];
      [destruct (_error_code r2 =? 0)|]; exact Ht.
Qed.

(** No path of the core lets a transport exception escape. *)
Lemma do_call_no_transport (pu : string) (m : method) (d : dict) (t : Z)
    (s : state) :
  not_transport (fst (do_call pu m d t s)).
Proof.
  unfold RestHelper.do_call.
  destruct (url s) as [u0|]; [|exact I].
  destruct (session s) as [ss|]; [|exact I].
  destruct (net _ _) as [|st [e|]]; simpl; try exact I;
    destruct ((400 <=? st) && (st <? 600)); exact I.
Qed.

Lemma logout_no_transport (s : state) :
  not_transport (fst (logout s)).
Proof.
  destruct (truthy (url s)) eqn:Hu.
  - rewrite (logout_unfold s Hu).
    pose proof (do_call_no_transport "/sessions" DELETE [] (SOCKET_TIMEOUT K) s)
      as H.
    destruct (do_call _ _ _ _ s) as [[r|e] s1]; simpl in *; [|exact H].
    destruct (_error_code r =? 0); exact I.
  - unfold RestHelper.logout, bind, get. rewrite Hu. exact I.
Qed.

Lemma login_loop_no_transport (username password : string)
    (addrs : list string) (s : state) :
  not_transport (fst (login_loop username password addrs s)).
Proof.
  revert s. induction addrs as [|item rest IH]; intros s; [exact I|].
  rewrite login_loop_cons.
  match goal with |- context [do_call ?a ?b ?c ?d ?s0] =>
    pose proof (do_call_no_transport a b c d s0) as H;
    destruct (do_call a b c d s0) as [[r|e] s1] end; [|exact H].
  destruct (negb (_error_code r =? 0)); [apply IH|].
  destruct (get_data deviceid r) as [dev|]; [|exact I].
  cbv zeta. destruct (pwd_expired K r); [|exact I].
  match goal with |- context [logout ?s2] =>
    pose proof (logout_no_transport s2) as H2;
    destruct (logout s2) as [[[]|e] s3] end; [exact I|exact H2].
Qed.

Lemma login_no_transport (s : state) :
  not_transport (fst (login s)).
Proof.
  unfold RestHelper.login, bind at 1.
  unfold _get_user_info, decode_credential, bind, ret, raise.
  destruct (String.prefix _ nas_username);
    [destruct (b64decode _); [|exact I]|];
  (destruct (String.prefix _ nas_password);
    [destruct (b64decode _); [|exact I]|]);
  apply login_loop_no_transport.
Qed.

Lemma relogin_no_transport (old_token : option string) (s : state) :
  not_transport (fst (relogin old_token s)).
Proof.
  rewrite relogin_unfold.
  destruct (url s) as [u0|].
  - destruct (session s) as [ss|]; [|exact I].
    destruct (opt_eqb _ _); [|exact I].
    destruct (login _) as [[[]|e] s']; exact I.
  - destruct (login s) as [[[]|e] s']; exact I.
Qed.

Lemma call_no_transport (u : string) (m : method) (d : dict) (t : Z)
    (s : state) :
  not_transport (fst (call u m d t s)).
Proof.
  unfold RestHelper.call, bind at 1.
  assert (Hf : not_transport (fst (call_first u m d t s))).
  { unfold RestHelper.call_first, bind, get.
    destruct (truthy (url s)); [|exact I].
    destruct (session s) as [ss|]; [|exact I].
    pose proof (do_call_no_transport u m d t s) as H2.
    destruct (do_call u m d t s) as [[r2|e] s3]; [exact I|exact H2]. }
  destruct (call_first u m d t s) as [[[ot r]|e] s1]; [|exact Hf].
  simpl. unfold RestHelper.call_rest.
  destruct (in_codes _ _); [|exact I].
  unfold bind at 1.
  pose proof (relogin_no_transport ot s1) as H.
  destruct (relogin ot s1) as [[[]|e] s2]; [| |exact H].
  - unfold bind.
    pose proof (do_call_no_transport u m d t s2) as H2.
    destruct (do_call u m d t s2) as [[r2|e] s3]; [|exact H2].
    destruct (_ =? _); exact I.
  - exact I.
Qed.

(** C8 (as amended): from a state with a URL and a session, an exception
    of the send becomes the connect-failure envelope and a 4xx or 5xx
    status (those [raise_for_status] rejects) becomes an envelope with the
    status and the HTTP error text; any other status is read as JSON like a
    2xx.  No transport exception ever leaves [call]. *)
Theorem do_call_converts_transport_failures (pu : string) (m : method)
    (d : dict) (t : Z) (s : state) (u0 : string) (ss : session_t) :
  url s = Some u0 -> session s = Some ss ->
  let req := mkReq (u0 ++ pu) m (if dict_truthy d then Some d else None)
                   t (token ss) in
  (net (length (trace s)) req = ORaise ->
   fst (do_call pu m d t s) = Ok (connect_error K)) /\
  (forall st body, net (length (trace s)) req = OResp st body ->
   400 <= st < 600 ->
   fst (do_call pu m d t s) =
     Ok (mkEnv st (http_error_text st (u0 ++ pu)) None)) /\
  (forall st e, net (length (trace s)) req = OResp st (Some e) ->
   ~ (400 <= st < 600) ->
   fst (do_call pu m d t s) = Ok e) /\
  (forall u' m' d' t' s', not_transport (fst (call u' m' d' t' s'))).
Proof.
  intros Hu Hs req.
  assert (Hd : do_call pu m d t s =
    match net (length (trace s)) req with
    | ORaise => (Ok (connect_error K), snd (do_call pu m d t s))
    | OResp st body =>
      if (400 <=? st) && (st <? 600)
      then (Ok (mkEnv st (http_error_text st (u0 ++ pu)) None),
            snd (do_call pu m d t s))
      else match body with
           | Some e => (Ok e, snd (do_call pu m d t s))
           | None => (Err JSONDecodeError, snd (do_call pu m d t s))
           end
    end).
  { unfold RestHelper.do_call. rewrite Hu, Hs. fold req.
    destruct (net _ req) as [|st [e|]]; simpl; [reflexivity| |];
      destruct ((400 <=? st) && (st <? 600)); reflexivity. }
  split; [|split; [|split]].
  - intros Hn. rewrite Hd, Hn. reflexivity.
  - intros st body Hn Hr. rewrite Hd, Hn.
    replace ((400 <=? st) && (st <? 600)) with true; [reflexivity|].
    symmetry. apply andb_true_intro. split; [apply Z.leb_le | apply Z.ltb_lt]; lia.
  - intros st e Hn Hr. rewrite Hd, Hn.
    replace ((400 <=? st) && (st <? 600)) with false; [reflexivity|].
    symmetry.
    destruct (400 <=? st) eqn:E1, (st <? 600) eqn:E2; try reflexivity.
    apply Z.leb_le in E1. apply Z.ltb_lt in E2. exfalso. apply Hr. lia.
  - apply call_no_transport.
Qed.

(** C10: a response whose status [raise_for_status] accepts but whose body
    is not JSON makes [res.json()] raise, and the exception leaves
    [do_call] and the first attempt of [call] unchanged. *)
Theorem bad_json_propagates (u : string) (m : method) (d : dict) (t : Z)
    (s : state) (u0 : string) (ss : session_t) (st : Z) :
  url s = Some u0 -> u0 <> ""%string -> session s = Some ss ->
  net (length (trace s))
      (mkReq (u0 ++ u) m (if dict_truthy d then Some d else None) t
             (token ss)) = OResp st None ->
  ~ (400 <= st < 600) ->
  fst (do_call u m d t s) = Err JSONDecodeError /\
  fst (call u m d t s) = Err JSONDecodeError.
Proof.
  intros Hu Hne Hs Hn Hr.
  assert (Hst : (400 <=? st) && (st <? 600) = false).
  { destruct (400 <=? st) eqn:E1, (st <? 600) eqn:E2; try reflexivity.
    apply Z.leb_le in E1. apply Z.ltb_lt in E2. exfalso. apply Hr. lia. }
  assert (Hd : fst (do_call u m d t s) = Err JSONDecodeError).
  { unfold RestHelper.do_call. rewrite Hu, Hs, Hn. simpl. rewrite Hst.
    reflexivity. }
  split; [exact Hd|].
  assert (Ht : truthy (url s) = true).
  { rewrite Hu. simpl. destruct (String.eqb_spec u0 ""); [contradiction|].
    reflexivity. }
  assert (Hf : fst (call_first u m d t s) = Err JSONDecodeError).
  { unfold RestHelper.call_first, bind, get. rewrite Ht, Hs.
    destruct (do_call u m d t s) as [[r|e] s1]; simpl in Hd; [discriminate|].
    injection Hd as ->. reflexivity. }
  unfold RestHelper.call, bind at 1.
  destruct (call_first u m d t s) as [[p|e] s1]; simpl in Hf; [discriminate|].
  injection Hf as ->. reflexivity.
Qed.

End Props.

(** ** Properties of the pager *)

Section PagerProps.

Local Open Scope nat_scope.

Context {A P : Type}.
Variable MAX_QUERY_COUNT : nat.
Variable func : nat -> nat -> P -> list A.
Variable params : P.

Local Abbreviation page i :=
  (func (i * MAX_QUERY_COUNT) (i * MAX_QUERY_COUNT + MAX_QUERY_COUNT) params).
Local Abbreviation window i :=
  (i * MAX_QUERY_COUNT, i * MAX_QUERY_COUNT + MAX_QUERY_COUNT).

(** From window [i0] on, with pages [i0 .. j-1] full and page [j] short. *)
Lemma info_by_range_loop_pages (j : nat) :
  (forall i, i < j -> MAX_QUERY_COUNT <= length (page i)) ->
  length (page j) < MAX_QUERY_COUNT ->
  forall dist i0 acc fuel, i0 + dist = j -> dist < fuel ->
  info_by_range_loop MAX_QUERY_COUNT fuel func params
    (i0 * MAX_QUERY_COUNT) acc =
  Some (map (fun i => window i) (seq i0 (S dist)),
        acc ++ concat (map (fun i => page i) (seq i0 (S dist)))).
Proof.
  intros Hfull Hshort dist.
  induction dist as [|dist IH]; intros i0 acc fuel Hj Hf;
    (destruct fuel as [|fuel]; [lia|]); simpl.
  - rewrite Nat.add_0_r in Hj. subst i0.
    apply Nat.ltb_lt in Hshort. rewrite Hshort.
    rewrite app_nil_r. reflexivity.
  - assert (Hl : Nat.ltb (length (page i0)) MAX_QUERY_COUNT = false).
    { apply Nat.ltb_ge. apply Hfull. lia. }
    rewrite Hl.
    pose proof (IH (S i0) (acc ++ page i0) fuel ltac:(lia) ltac:(lia)) as HI.
    rewrite Nat.mul_succ_l in HI. rewrite HI.
    rewrite app_assoc. reflexivity.
Qed.

End PagerProps.

Section PagerClaim.

Local Open Scope nat_scope.

(** C9: the pager asks for the windows [[0, MAX)], [[MAX, 2 MAX)], ... in
    turn and concatenates the pages in fetch order; when pages [0 .. j-1]
    are full and page [j] is short it stops after exactly [j + 1] fetches.
    On a 250-item dataset with pages of 100 it fetches three windows, whose
    pages hold 100, 100 and 50 items, and returns the 250 items in order. *)
Theorem get_info_by_range_windows {A P : Type} (MAX_QUERY_COUNT : nat)
    (func : nat -> nat -> P -> list A) (params : P) :
  (forall j fuel,
   (forall i, i < j -> MAX_QUERY_COUNT <= length (func (i * MAX_QUERY_COUNT) (i * MAX_QUERY_COUNT + MAX_QUERY_COUNT) params)) ->
   length (func (j * MAX_QUERY_COUNT) (j * MAX_QUERY_COUNT + MAX_QUERY_COUNT) params) < MAX_QUERY_COUNT ->
   j < fuel ->
   _get_info_by_range MAX_QUERY_COUNT fuel func params =
   Some (map (fun i => (i * MAX_QUERY_COUNT, i * MAX_QUERY_COUNT + MAX_QUERY_COUNT)) (seq 0 (S j)),
         concat (map (fun i => func (i * MAX_QUERY_COUNT) (i * MAX_QUERY_COUNT + MAX_QUERY_COUNT) params) (seq 0 (S j))))) /\
  (forall fuel, 3 <= fuel ->
   _get_info_by_range 100 fuel (dataset_pages (seq 0 250)) tt =
     Some ([(0, 100); (100, 200); (200, 300)], seq 0 250) /\
   map (fun w => length (dataset_pages (seq 0 250) (fst w) (snd w) tt))
       [(0, 100); (100, 200); (200, 300)] = [100; 100; 50]).
Proof.
  split.
  - intros j fuel Hfull Hshort Hf.
    unfold _get_info_by_range.
    exact (info_by_range_loop_pages MAX_QUERY_COUNT func params j Hfull Hshort j 0 [] fuel eq_refl Hf).
  - intros fuel Hf. split; [|vm_compute; reflexivity].
    unfold _get_info_by_range.
    assert (Hfull : forall i, i < 2 ->
              100 <= length (dataset_pages (seq 0 250) (i * 100) (i * 100 + 100) tt)).
    { intros i Hi. destruct i as [|[|i]]; [vm_compute; lia | vm_compute; lia | lia]. }
    assert (Hshort : length (dataset_pages (seq 0 250) (2 * 100) (2 * 100 + 100) tt)
                     < 100) by (vm_compute; lia).
    eapply eq_trans.
    + exact (info_by_range_loop_pages 100 (dataset_pages (seq 0 250)) tt 2
               Hfull Hshort 2 0 [] fuel eq_refl ltac:(lia)).
    + vm_compute. reflexivity.
Qed.

End PagerClaim.

(** ** Properties of [call]'s re-login and of the resource operations *)

Section ResourceProps.

Variable K : constants.
Variable DK : domain_constants.
Variable net : nat -> request -> outcome.
Variable http_error_text : Z -> string -> string.
Variable b64decode : string -> option string.
Variable nas_address : list string.
Variable nas_username nas_password : string.
Variable json_dumps : list string -> string.

Local Abbreviation do_call := (do_call K net http_error_text).
Local Abbreviation login :=
  (login K net http_error_text b64decode nas_address nas_username nas_password).
Local Abbreviation relogin :=
  (relogin K net http_error_text b64decode nas_address nas_username nas_password).
Local Abbreviation call :=
  (call K net http_error_text b64decode nas_address nas_username nas_password).
Local Abbreviation rcall :=
  (rcall K net http_error_text b64decode nas_address nas_username nas_password).
Local Abbreviation delete_tolerant :=
  (delete_tolerant K net http_error_text b64decode nas_address nas_username
     nas_password).

Local Abbreviation delete_share :=
  (delete_share K DK net http_error_text b64decode nas_address nas_username
     nas_password).
Local Abbreviation delete_filesystem :=
  (delete_filesystem K DK net http_error_text b64decode nas_address
     nas_username nas_password).
Local Abbreviation delete_snapshot :=
  (delete_snapshot K DK net http_error_text b64decode nas_address
     nas_username nas_password).
Local Abbreviation delete_vlan :=
  (delete_vlan K DK net http_error_text b64decode nas_address nas_username
     nas_password).
Local Abbreviation delete_logical_port :=
  (delete_logical_port K DK net http_error_text b64decode nas_address
     nas_username nas_password).
Local Abbreviation delete_ldap_config :=
  (delete_ldap_config K DK net http_error_text b64decode nas_address
     nas_username nas_password).
Local Abbreviation delete_hypermetro_pair :=
  (delete_hypermetro_pair K DK net http_error_text b64decode nas_address
     nas_username nas_password).
Local Abbreviation remove_access :=
  (remove_access K net http_error_text b64decode nas_address nas_username
     nas_password).
Local Abbreviation delete_qos :=
  (delete_qos K net http_error_text b64decode nas_address nas_username
     nas_password).
Local Abbreviation change_access :=
  (change_access K net http_error_text b64decode nas_address nas_username
     nas_password).
Local Abbreviation delete_replication_pair :=
  (delete_replication_pair K DK net http_error_text b64decode nas_address
     nas_username nas_password).
Local Abbreviation set_dns_ip_address :=
  (set_dns_ip_address K net http_error_text b64decode nas_address
     nas_username nas_password json_dumps).

Lemma logged_at_truthy (s : state) (u0 : string) (ss : session_t) :
  logged_at s u0 ss -> truthy (url s) = true.
Proof.
  intros [Hu [Hne _]]. rewrite Hu. unfold truthy.
  apply negb_true_iff, String.eqb_neq. exact Hne.
Qed.

Lemma logged_at_after_send (s : state) (u0 : string) (ss : session_t)
    (req : request) :
  logged_at s u0 ss -> logged_at (after_send s req) u0 ss.
Proof. intros H. exact H. Qed.

Lemma call_no_relogin_step (u : string) (m : method) (d : dict) (t : Z)
    (s s1 : state) (r : envelope) :
  truthy (url s) = true ->
  do_call u m d t s = (Ok r, s1) ->
  in_codes (_error_code r) (RELOGIN_ERROR_CODE K) = false ->
  call u m d t s = (Ok r, s1).
Proof.
  intros Hu Hd Hc.
  unfold RestHelper.call, RestHelper.call_first, bind, get. rewrite Hu.
  destruct (session s) as [ss|] eqn:Hs.
  - rewrite Hd. unfold ret. cbn [fst snd].
    unfold RestHelper.call_rest. rewrite Hc. reflexivity.
  - unfold RestHelper.do_call in Hd. rewrite Hs in Hd.
    destruct (url s); discriminate.
Qed.

(** [call] from a logged-in state when the array answers with a code that
    does not ask for a re-login. *)
Lemma call_answer (u : string) (m : method) (d : dict) (t : Z) (s : state)
    (u0 : string) (ss : session_t) (st : Z) (e : envelope) :
  logged_at s u0 ss ->
  net (length (trace s))
      (mkReq (u0 ++ u) m (if dict_truthy d then Some d else None) t (token ss))
    = OResp st (Some e) ->
  (400 <=? st) && (st <? 600) = false ->
  in_codes (_error_code e) (RELOGIN_ERROR_CODE K) = false ->
  call u m d t s =
    (Ok e, after_send s (mkReq (u0 ++ u) m
                           (if dict_truthy d then Some d else None) t
                           (token ss))).
Proof.
  intros Hl Hn Hst Hc.
  apply call_no_relogin_step; [exact (logged_at_truthy s u0 ss Hl)| |exact Hc].
  destruct Hl as [Hu [_ Hs]].
  unfold RestHelper.do_call, after_send. rewrite Hu, Hs. cbv zeta.
  rewrite Hn, Hst. reflexivity.
Qed.

Lemma delete_tolerant_answer (u : string) (d : dict) (ne : Z)
    (fmt : string) (s : state) (u0 : string) (ss : session_t) (st : Z)
    (e : envelope) :
  logged_at s u0 ss ->
  net (length (trace s))
      (mkReq (u0 ++ u) DELETE (if dict_truthy d then Some d else None)
             (SOCKET_TIMEOUT K) (token ss))
    = OResp st (Some e) ->
  (400 <=? st) && (st <? 600) = false ->
  in_codes (_error_code e) (RELOGIN_ERROR_CODE K) = false ->
  delete_tolerant u d ne fmt s =
    (if (_error_code e =? ne) || (_error_code e =? 0) then DOk tt
     else DErr (Backend (ShareBackendException fmt)),
     after_send s (mkReq (u0 ++ u) DELETE
                         (if dict_truthy d then Some d else None)
                         (SOCKET_TIMEOUT K) (token ss))).
Proof.
  intros Hl Hn Hst Hc.
  unfold Resources.delete_tolerant, dbind, Resources.rcall, lift.
  rewrite (call_answer u DELETE d (SOCKET_TIMEOUT K) s u0 ss st e Hl Hn Hst Hc).
  destruct (_error_code e =? ne); [reflexivity|].
  unfold Resources.assert_result, lift, _assert_result, raise, ret. simpl.
  destruct (_error_code e =? 0); reflexivity.
Qed.

Lemma assert_answer (u : string) (m : method) (d : dict) (fmt : string)
    (s : state) (u0 : string) (ss : session_t) (st : Z) (e : envelope) :
  logged_at s u0 ss ->
  net (length (trace s))
      (mkReq (u0 ++ u) m (if dict_truthy d then Some d else None)
             (SOCKET_TIMEOUT K) (token ss))
    = OResp st (Some e) ->
  (400 <=? st) && (st <? 600) = false ->
  in_codes (_error_code e) (RELOGIN_ERROR_CODE K) = false ->
  dbind (rcall u m d) (fun r => assert_result r fmt) s =
    (if _error_code e =? 0 then DOk tt
     else DErr (Backend (ShareBackendException fmt)),
     after_send s (mkReq (u0 ++ u) m (if dict_truthy d then Some d else None)
                         (SOCKET_TIMEOUT K) (token ss))).
Proof.
  intros Hl Hn Hst Hc.
  unfold dbind, Resources.rcall, lift.
  rewrite (call_answer u m d (SOCKET_TIMEOUT K) s u0 ss st e Hl Hn Hst Hc).
  unfold Resources.assert_result, lift, _assert_result, raise, ret.
  destruct (_error_code e =? 0); reflexivity.
Qed.

(** X1: when the array's answer is not a re-login code, [call] is exactly
    one [do_call]: same result, same state, no re-login and no retry. *)
Theorem call_single_request_without_relogin_code (u : string) (m : method)
    (d : dict) (t : Z) (s s1 : state) (r : envelope) :
  truthy (url s) = true ->
  do_call u m d t s = (Ok r, s1) ->
  in_codes (_error_code r) (RELOGIN_ERROR_CODE K) = false ->
  call u m d t s = (Ok r, s1).
Proof.
  intros Hu Hd Hc.
  unfold RestHelper.call, RestHelper.call_first, bind, get. rewrite Hu.
  destruct (session s) as [ss|] eqn:Hs.
  - rewrite Hd. unfold ret. cbn [fst snd].
    unfold RestHelper.call_rest. rewrite Hc. reflexivity.
  - unfold RestHelper.do_call in Hd. rewrite Hs in Hd.
    destruct (url s); discriminate.
Qed.

(** X2: once a re-login has replaced the token [old_token], a second
    [relogin] with the same stale token (another thread that saw the same
    failure) succeeds at once, without logging out, logging in or sending
    anything. *)
Theorem relogin_stale_token_no_second_login (old_token : option string)
    (s s1 : state) :
  relogin old_token s = (Ok true, s1) ->
  (forall ss, session s1 = Some ss -> token ss <> old_token) ->
  relogin old_token s1 = (Ok true, s1).
Proof.
  intros H Hne.
  destruct (relogin_true_sets K net http_error_text b64decode nas_address
              nas_username nas_password old_token s s1 H)
    as [u0 [tok [Hu Hs]]].
  rewrite relogin_unfold, Hu, Hs.
  destruct (opt_eqb old_token (token (mkSession tok))) eqn:Heq;
    [|reflexivity].
  apply opt_eqb_eq in Heq. exfalso. exact (Hne _ Hs (eq_sym Heq)).
Qed.

(** X3: with no URL yet, [call] logs in first (the unauthorized envelope it
    builds carries a re-login code) and, once the login succeeds, sends the
    request from the logged-in state, reporting the re-login pass code as
    success. *)
Theorem call_logs_in_lazily (u : string) (m : method) (d : dict) (t : Z)
    (s s1 : state) :
  url s = None ->
  in_codes (ERROR_UNAUTHORIZED_TO_SERVER K) (RELOGIN_ERROR_CODE K) = true ->
  login s = (Ok tt, s1) ->
  call u m d t s =
    match do_call u m d t s1 with
    | (Ok r, s2) =>
      (Ok (if _error_code r =? RELOGIN_ERROR_PASS K
           then mkEnv 0 (description r) (data r) else r), s2)
    | (Err e, s2) => (Err e, s2)
    end.
Proof.
  intros Hu Hc Hl.
  assert (Hf : RestHelper.call_first K net http_error_text u m d t s
               = (Ok (None, unauthorized K), s)).
  { unfold RestHelper.call_first, bind, get, ret. rewrite Hu. reflexivity. }
  unfold RestHelper.call, bind at 1. rewrite Hf. cbn [fst snd].
  unfold RestHelper.call_rest. unfold _error_code at 1, unauthorized.
  cbn [code]. rewrite Hc. unfold bind at 1.
  rewrite relogin_unfold, Hu, Hl.
  unfold bind. destruct (do_call u m d t s1) as [[r|e] s2]; [|reflexivity].
  destruct (_error_code r =? RELOGIN_ERROR_PASS K); reflexivity.
Qed.

Lemma vstore_body (vstore_id : option string) :
  (if dict_truthy (vstore_data vstore_id) then Some (vstore_data vstore_id)
   else None) =
  match vstore_id with
  | Some v => if String.eqb v "" then None else Some [("vstoreId"%string, v)]
  | None => None
  end.
Proof.
  destruct vstore_id as [v|]; [|reflexivity].
  unfold vstore_data, truthy. destruct (String.eqb v ""); reflexivity.
Qed.

(** X5: from a logged-in session, [delete_share] sends one DELETE to
    [/NFSHARE/id] or [/CIFSHARE/id], with a [vstoreId] body only for a
    non-empty vStore id; it succeeds when the array reports success or that
    the share does not exist, and raises [ShareBackendException]
    otherwise. *)
Theorem delete_share_tolerates_missing (share_id share_proto : string)
    (vstore_id : option string) (s : state) (u0 : string) (ss : session_t)
    (st : Z) (e : envelope) :
  share_proto = "NFS"%string \/ share_proto = "CIFS"%string ->
  logged_at s u0 ss ->
  let req := mkReq (u0 ++ (if String.eqb share_proto "NFS" then "/NFSHARE/"
                           else "/CIFSHARE/") ++ share_id)
                   DELETE
                   (match vstore_id with
                    | Some v => if String.eqb v "" then None
                                else Some [("vstoreId"%string, v)]
                    | None => None
                    end)
                   (SOCKET_TIMEOUT K) (token ss) in
  net (length (trace s)) req = OResp st (Some e) ->
  (400 <=? st) && (st <? 600) = false ->
  in_codes (_error_code e) (RELOGIN_ERROR_CODE K) = false ->
  delete_share share_id share_proto vstore_id s =
    (if (_error_code e =? SHARE_NOT_EXIST DK) || (_error_code e =? 0)
     then DOk tt
     else DErr (Backend (ShareBackendException "Delete share %s error.")),
     after_send s req).
Proof.
  intros Hp Hl req Hn Hst Hc. unfold req in *. clear req.
  rewrite <- vstore_body in Hn |- *.
  unfold Resources.delete_share.
  destruct Hp as [-> | ->].
  - replace (String.eqb "NFS" "NFS") with true in * by reflexivity.
    exact (delete_tolerant_answer _ _ _ _ s u0 ss st e Hl Hn Hst Hc).
  - replace (String.eqb "CIFS" "NFS") with false in * by reflexivity.
    replace (String.eqb "CIFS" "CIFS") with true by reflexivity.
    exact (delete_tolerant_answer _ _ _ _ s u0 ss st e Hl Hn Hst Hc).
Qed.

(** X6: [delete_filesystem] sends one DELETE to [/filesystem] carrying the
    parameters (no body for empty ones) and succeeds when the array reports
    success or that the filesystem does not exist. *)
Theorem delete_filesystem_tolerates_missing (params : dict) (s : state)
    (u0 : string) (ss : session_t) (st : Z) (e : envelope) :
  logged_at s u0 ss ->
  let req := mkReq (u0 ++ "/filesystem") DELETE
                   (if dict_truthy params then Some params else None)
                   (SOCKET_TIMEOUT K) (token ss) in
  net (length (trace s)) req = OResp st (Some e) ->
  (400 <=? st) && (st <? 600) = false ->
  in_codes (_error_code e) (RELOGIN_ERROR_CODE K) = false ->
  delete_filesystem params s =
    (if (_error_code e =? FILESYSTEM_NOT_EXIST DK) || (_error_code e =? 0)
     then DOk tt
     else DErr (Backend (ShareBackendException "Delete filesystem %s error.")),
     after_send s req).
Proof.
  intros Hl req Hn Hst Hc.
  exact (delete_tolerant_answer _ _ _ _ s u0 ss st e Hl Hn Hst Hc).
Qed.

(** X7: the deletes of a snapshot, a VLAN, a logical port, the LDAP
    configuration and a HyperMetro pair each send one DELETE without a body
    to the object's path, and each succeeds exactly when the array reports
    success or its own "does not exist" code. *)
Theorem id_deletes_tolerate_missing (obj_id : string) (s : state)
    (u0 : string) (ss : session_t) (st : Z) (e : envelope) :
  logged_at s u0 ss ->
  (forall req, net (length (trace s)) req = OResp st (Some e)) ->
  (400 <=? st) && (st <? 600) = false ->
  in_codes (_error_code e) (RELOGIN_ERROR_CODE K) = false ->
  let sent p := after_send s (mkReq (u0 ++ p) DELETE None (SOCKET_TIMEOUT K)
                                    (token ss)) in
  let verdict ne fmt :=
    if (_error_code e =? ne) || (_error_code e =? 0) then DOk tt
    else DErr (Backend (ShareBackendException fmt)) in
  delete_snapshot obj_id s =
    (verdict (SNAPSHOT_NOT_EXIST DK) "Delete snapshot %s error."%string,
     sent ("/FSSNAPSHOT/" ++ obj_id)%string) /\
  delete_vlan obj_id s =
    (verdict (OBJECT_NOT_EXIST DK) "Delete vlan %s error."%string,
     sent ("/vlan/" ++ obj_id)%string) /\
  delete_logical_port obj_id s =
    (verdict (OBJECT_NOT_EXIST DK) "Delete logical port %s error."%string,
     sent ("/LIF/" ++ obj_id)%string) /\
  delete_ldap_config s =
    (verdict (AD_DOMAIN_NOT_EXIST DK) "Delete LDAP config error."%string,
     sent "/LDAP_CONFIG"%string) /\
  delete_hypermetro_pair obj_id s =
    (verdict (ERROR_HYPERMETRO_NOT_EXIST DK)
       "Delete HyperMetro pair %s error."%string,
     sent ("/HyperMetroPair/" ++ obj_id ++ "?isOnlineDeleting=0")%string).
Proof.
  intros Hl Hn Hst Hc sent verdict. unfold sent, verdict.
  unfold Resources.delete_snapshot, Resources.delete_vlan,
    Resources.delete_logical_port, Resources.delete_ldap_config,
    Resources.delete_hypermetro_pair.
  repeat split; apply (delete_tolerant_answer _ [] _ _ s u0 ss st e Hl);
    solve [apply Hn | assumption].
Qed.

(** X8: [remove_access] sends one DELETE to the protocol's access-client
    path and, unlike the deletes above, tolerates no error code: it
    succeeds only when the array reports success. *)
Theorem remove_access_requires_success (access_id share_proto : string)
    (vstore_id : option string) (s : state) (u0 : string) (ss : session_t)
    (st : Z) (e : envelope) :
  share_proto = "NFS"%string \/ share_proto = "CIFS"%string ->
  logged_at s u0 ss ->
  let req := mkReq (u0 ++ (if String.eqb share_proto "NFS"
                           then "/NFS_SHARE_AUTH_CLIENT/"
                           else "/CIFS_SHARE_AUTH_CLIENT/") ++ access_id)
                   DELETE
                   (match vstore_id with
                    | Some v => if String.eqb v "" then None
                                else Some [("vstoreId"%string, v)]
                    | None => None
                    end)
                   (SOCKET_TIMEOUT K) (token ss) in
  net (length (trace s)) req = OResp st (Some e) ->
  (400 <=? st) && (st <? 600) = false ->
  in_codes (_error_code e) (RELOGIN_ERROR_CODE K) = false ->
  remove_access access_id share_proto vstore_id s =
    (if _error_code e =? 0 then DOk tt
     else DErr (Backend (ShareBackendException "Delete access %s error.")),
     after_send s req).
Proof.
  intros Hp Hl req Hn Hst Hc. unfold req in *. clear req.
  rewrite <- vstore_body in Hn |- *.
  unfold Resources.remove_access.
  destruct Hp as [-> | ->].
  - replace (String.eqb "NFS" "NFS") with true in * by reflexivity.
    exact (assert_answer _ _ _ _ s u0 ss st e Hl Hn Hst Hc).
  - replace (String.eqb "CIFS" "NFS") with false in * by reflexivity.
    replace (String.eqb "CIFS" "CIFS") with true by reflexivity.
    exact (assert_answer _ _ _ _ s u0 ss st e Hl Hn Hst Hc).
Qed.

(** X9: [delete_qos] sends one DELETE without a body to [/ioclass/id] and
    succeeds only when the array reports success. *)
Theorem delete_qos_requires_success (qos_id : string) (s : state)
    (u0 : string) (ss : session_t) (st : Z) (e : envelope) :
  logged_at s u0 ss ->
  let req := mkReq (u0 ++ "/ioclass/" ++ qos_id) DELETE None
                   (SOCKET_TIMEOUT K) (token ss) in
  net (length (trace s)) req = OResp st (Some e) ->
  (400 <=? st) && (st <? 600) = false ->
  in_codes (_error_code e) (RELOGIN_ERROR_CODE K) = false ->
  delete_qos qos_id s =
    (if _error_code e =? 0 then DOk tt
     else DErr (Backend (ShareBackendException "Delete QoS %s error.")),
     after_send s req).
Proof.
  intros Hl req Hn Hst Hc.
  exact (assert_answer _ _ [] _ s u0 ss st e Hl Hn Hst Hc).
Qed.

(** X10: [change_access] sends one PUT to the protocol's access-client path
    whose body sets [ACCESSVAL] (NFS) or [PERMISSION] (CIFS) to the level,
    followed by [vstoreId] for a non-empty vStore id; it succeeds only when
    the array reports success. *)
Theorem change_access_request (access_id share_proto access_level : string)
    (vstore_id : option string) (s : state) (u0 : string) (ss : session_t)
    (st : Z) (e : envelope) :
  share_proto = "NFS"%string \/ share_proto = "CIFS"%string ->
  logged_at s u0 ss ->
  let nfs := String.eqb share_proto "NFS" in
  let req := mkReq (u0 ++ (if nfs then "/NFS_SHARE_AUTH_CLIENT/"
                           else "/CIFS_SHARE_AUTH_CLIENT/") ++ access_id)
                   PUT
                   (Some (((if nfs then "ACCESSVAL" else "PERMISSION")%string,
                           access_level) ::
                          match vstore_id with
                          | Some v => if String.eqb v "" then []
                                      else [("vstoreId"%string, v)]
                          | None => []
                          end))
                   (SOCKET_TIMEOUT K) (token ss) in
  net (length (trace s)) req = OResp st (Some e) ->
  (400 <=? st) && (st <? 600) = false ->
  in_codes (_error_code e) (RELOGIN_ERROR_CODE K) = false ->
  change_access access_id share_proto access_level vstore_id s =
    (if _error_code e =? 0 then DOk tt
     else DErr (Backend (ShareBackendException
                           "Change access %s level to %s error.")),
     after_send s req).
Proof.
  intros Hp Hl nfs req Hn Hst Hc. unfold req, nfs in *. clear req nfs.
  assert (Hv : forall p : string * string,
    (if truthy vstore_id then [p] ++ vstore_data vstore_id else [p]) =
    p :: match vstore_id with
         | Some v => if String.eqb v "" then [] else [("vstoreId"%string, v)]
         | None => []
         end).
  { intros p. destruct vstore_id as [v|]; [|reflexivity].
    unfold vstore_data, truthy. destruct (String.eqb v ""); reflexivity. }
  unfold Resources.change_access.
  destruct Hp as [-> | ->].
  - replace (String.eqb "NFS" "NFS") with true in * by reflexivity.
    cbv zeta iota beta. rewrite Hv.
    exact (assert_answer _ _ (_ :: _) _ s u0 ss st e Hl Hn Hst Hc).
  - replace (String.eqb "CIFS" "NFS") with false in * by reflexivity.
    replace (String.eqb "CIFS" "CIFS") with true by reflexivity.
    cbv zeta iota beta. rewrite Hv.
    exact (assert_answer _ _ (_ :: _) _ s u0 ss st e Hl Hn Hst Hc).
Qed.

Lemma replication_broken_link_loop (depth : nat) (pair_id : string)
    (force : bool) (s : state) (u0 : string) (ss : session_t) (st : Z)
    (e : envelope) :
  logged_at s u0 ss ->
  (forall n req, net n req = OResp st (Some e)) ->
  (400 <=? st) && (st <? 600) = false ->
  _error_code e = REPLICATION_CONNECTION_NOT_NORMAL DK ->
  in_codes (_error_code e) (RELOGIN_ERROR_CODE K) = false ->
  delete_replication_pair depth pair_id force s =
    (DErr OutOfFuel,
     mkSt (url s) (session s)
       (trace s ++
        mkReq (u0 ++ "/REPLICATIONPAIR/" ++ pair_id ++ "?ISLOCALDELETE=" ++
               (if force then "true" else "false")) DELETE None
              (SOCKET_TIMEOUT K) (token ss) ::
        repeat (mkReq (u0 ++ "/REPLICATIONPAIR/" ++ pair_id ++
                       "?ISLOCALDELETE=" ++ "true") DELETE None
                      (SOCKET_TIMEOUT K) (token ss)) depth)
       (sessions_opened s)).
Proof.
  intros Hl Hn Hst He Hc. revert s force Hl.
  induction depth as [|k IH]; intros s force Hl;
    cbn [Resources.delete_replication_pair];
    unfold dbind, Resources.rcall, lift;
    rewrite (call_answer _ DELETE [] _ s u0 ss st e Hl (Hn _ _) Hst Hc);
    rewrite He, Z.eqb_refl.
  - reflexivity.
  - rewrite (IH _ true (logged_at_after_send s u0 ss _ Hl)).
    unfold after_send. cbn [url session trace sessions_opened].
    rewrite <- app_assoc. reflexivity.
Qed.

(** X11: while the array keeps answering that the replication link is not
    normal, no finite recursion depth lets [delete_replication_pair]
    return or raise: given room for [depth] nested calls, it has sent one
    non-forced DELETE and [depth] forced ones ([ISLOCALDELETE=true]) and
    still wants to recurse.  (What happens at the interpreter's recursion
    limit is outside the model.) *)
Theorem delete_replication_pair_unbounded_retry (depth : nat)
    (pair_id : string) (s : state) (u0 : string) (ss : session_t) (st : Z)
    (e : envelope) :
  logged_at s u0 ss ->
  (forall n req, net n req = OResp st (Some e)) ->
  (400 <=? st) && (st <? 600) = false ->
  _error_code e = REPLICATION_CONNECTION_NOT_NORMAL DK ->
  in_codes (_error_code e) (RELOGIN_ERROR_CODE K) = false ->
  let req (force : string) :=
    mkReq (u0 ++ "/REPLICATIONPAIR/" ++ pair_id ++ "?ISLOCALDELETE=" ++ force)
          DELETE None (SOCKET_TIMEOUT K) (token ss) in
  delete_replication_pair depth pair_id false s =
    (DErr OutOfFuel,
     mkSt (url s) (session s)
       (trace s ++ req "false"%string :: repeat (req "true"%string) depth)
       (sessions_opened s)).
Proof.
  intros Hl Hn Hst He Hc req.
  exact (replication_broken_link_loop depth pair_id false s u0 ss st e
           Hl Hn Hst He Hc).
Qed.

(** X12: after one "link not normal" answer, [delete_replication_pair]
    sends a single forced DELETE and then behaves like the other deletes:
    success on success or on "pair does not exist", [ShareBackendException]
    otherwise. *)
Theorem delete_replication_pair_forced_retry (depth : nat)
    (pair_id : string) (s : state) (u0 : string) (ss : session_t)
    (st1 st2 : Z) (e1 e2 : envelope) :
  logged_at s u0 ss ->
  let req (force : string) :=
    mkReq (u0 ++ "/REPLICATIONPAIR/" ++ pair_id ++ "?ISLOCALDELETE=" ++ force)
          DELETE None (SOCKET_TIMEOUT K) (token ss) in
  net (length (trace s)) (req "false"%string) = OResp st1 (Some e1) ->
  net (S (length (trace s))) (req "true"%string) = OResp st2 (Some e2) ->
  (400 <=? st1) && (st1 <? 600) = false ->
  (400 <=? st2) && (st2 <? 600) = false ->
  _error_code e1 = REPLICATION_CONNECTION_NOT_NORMAL DK ->
  _error_code e2 <> REPLICATION_CONNECTION_NOT_NORMAL DK ->
  in_codes (_error_code e1) (RELOGIN_ERROR_CODE K) = false ->
  in_codes (_error_code e2) (RELOGIN_ERROR_CODE K) = false ->
  delete_replication_pair (S depth) pair_id false s =
    (if (_error_code e2 =? REPLICATION_PAIR_NOT_EXIST DK) ||
        (_error_code e2 =? 0)
     then DOk tt
     else DErr (Backend (ShareBackendException
                           "Delete replication pair %s error.")),
     mkSt (url s) (session s)
       (trace s ++ [req "false"%string; req "true"%string])
       (sessions_opened s)).
Proof.
  intros Hl req Hn1 Hn2 Hst1 Hst2 He1 He2 Hc1 Hc2.
  unfold req in *. clear req.
  cbn [Resources.delete_replication_pair]. unfold dbind, Resources.rcall, lift.
  rewrite (call_answer _ DELETE [] _ s u0 ss st1 e1 Hl Hn1 Hst1 Hc1).
  rewrite He1, Z.eqb_refl.
  destruct depth as [|k]; cbn [Resources.delete_replication_pair];
    unfold dbind, Resources.rcall, lift;
    (rewrite (call_answer _ DELETE [] _ _ u0 ss st2 e2
                (logged_at_after_send s u0 ss _ Hl));
     [|unfold after_send; cbn [trace]; rewrite length_app, Nat.add_1_r;
       exact Hn2 | exact Hst2 | exact Hc2]);
    apply Z.eqb_neq in He2; rewrite He2;
    unfold after_send; cbn [url session trace sessions_opened];
    rewrite <- app_assoc; cbn [app];
    (destruct (_error_code e2 =? REPLICATION_PAIR_NOT_EXIST DK);
     [reflexivity|]);
    unfold Resources.assert_result, lift, _assert_result, raise, ret;
    destruct (_error_code e2 =? 0); reflexivity.
Qed.

(** X14: up to three addresses, [set_dns_ip_address] sends one PUT to
    [/DNS_Server] whose [ADDRESS] field is the JSON text of the list, and
    succeeds only when the array reports success. *)
Theorem set_dns_ip_address_request (dns_ip_list : list string) (s : state)
    (u0 : string) (ss : session_t) (st : Z) (e : envelope) :
  (length dns_ip_list <= 3)%nat ->
  logged_at s u0 ss ->
  let req := mkReq (u0 ++ "/DNS_Server") PUT
                   (Some [("ADDRESS"%string, json_dumps dns_ip_list)])
                   (SOCKET_TIMEOUT K) (token ss) in
  net (length (trace s)) req = OResp st (Some e) ->
  (400 <=? st) && (st <? 600) = false ->
  in_codes (_error_code e) (RELOGIN_ERROR_CODE K) = false ->
  set_dns_ip_address dns_ip_list s =
    (if _error_code e =? 0 then DOk tt
     else DErr (Backend (ShareBackendException "Set DNS ip address %s error.")),
     after_send s req).
Proof.
  intros Hlen Hl req Hn Hst Hc. unfold Resources.set_dns_ip_address.
  replace (Nat.ltb 3 (length dns_ip_list)) with false
    by (symmetry; apply Nat.ltb_ge; exact Hlen).
  exact (assert_answer _ _ [_] _ s u0 ss st e Hl Hn Hst Hc).
Qed.

End ResourceProps.


(** ** Concrete runs: witnesses and counterexamples *)

Section Runs.

Local Abbreviation K0 := sample_constants.
Local Abbreviation txt := sample_error_text.

(** C1 at a concrete run: a re-login code, a logout and login on the new
    device, and a retry answered with [RELOGIN_ERROR_PASS], returned as 0. *)
Lemma call_relogin_retry_once_witness :
  exists s1,
    call_first K0 net_relogin_pass txt "/filesystem" GET [] 52 logged_in =
      (Ok (Some "t1"%string, mkEnv 1003 "session expired" None), s1) /\
    in_codes 1003 (RELOGIN_ERROR_CODE K0) = true /\
    fst (call K0 net_relogin_pass txt no_base64 sample_addresses "admin" "pw"
           "/filesystem" GET [] 52 logged_in) =
      Ok (mkEnv 0 "already done" None).
Proof.
  set (s1 := snd (call_first K0 net_relogin_pass txt "/filesystem" GET [] 52
                              logged_in)).
  exists s1.
  assert (Hf : call_first K0 net_relogin_pass txt "/filesystem" GET [] 52
                 logged_in =
               (Ok (Some "t1"%string, mkEnv 1003 "session expired" None), s1))
    by (vm_compute; reflexivity).
  split; [exact Hf|]. split; [reflexivity|].
  destruct (call_relogin_retry_once K0 net_relogin_pass txt no_base64
              sample_addresses "admin" "pw" "/filesystem" GET [] 52 logged_in
              s1 (Some "t1"%string) (mkEnv 1003 "session expired" None)
              Hf eq_refl) as [Htrue _].
  destruct (Htrue (snd (relogin K0 net_relogin_pass txt no_base64
                          sample_addresses "admin" "pw" (Some "t1"%string) s1))
              ltac:(vm_compute; reflexivity)) as [Hc _].
  rewrite Hc. vm_compute. reflexivity.
Defined.

(** C3 fails at a concrete run: both endpoints reject the login; the
    session is left with the last endpoint as URL and no token. *)
Lemma failed_login_breaks_session_inv :
  let s' := snd (login K0 net_reject txt no_base64 sample_addresses
                       "admin" "pw" init_state) in
  fst (login K0 net_reject txt no_base64 sample_addresses "admin" "pw"
             init_state) = Err (ShareBackendException all_fail_msg) /\
  url s' = Some "https://b/"%string /\ has_token s' = false /\
  session_inv s' = false.
Proof. vm_compute. repeat split; reflexivity. Qed.

(** C4 fails at a concrete run: a logged-in session whose delete request
    is answered with a non-zero code makes [logout] raise. *)
Lemma logout_raises_counterexample :
  fst (logout K0 net_reject txt logged_in) =
    Err (ShareBackendException "Logout session error.").
Proof. vm_compute. reflexivity. Qed.

(** The amended C4 at the same run. *)
Lemma logout_raises_on_error_witness :
  truthy (url logged_in) = true /\
  logout K0 net_reject txt logged_in =
    (Err (ShareBackendException "Logout session error."),
     snd (do_call K0 net_reject txt "/sessions" DELETE [] 52 logged_in)) /\
  fst (relogin K0 net_reject txt no_base64 sample_addresses "admin" "pw"
         (Some "t1"%string) logged_in) = Ok false.
Proof.
  destruct (logout_raises_on_error K0 net_reject txt no_base64
              sample_addresses "admin" "pw" logged_in
              (snd (do_call K0 net_reject txt "/sessions" DELETE [] 52
                      logged_in))
              (mkEnv 1077949061 "rejected" None) eq_refl
              ltac:(vm_compute; reflexivity)) as [Hl Hr].
  split; [reflexivity|]. split.
  - rewrite Hl. reflexivity.
  - pose proof (Hr (mkSession (Some "t1"%string)) eq_refl) as Hr'.
    cbn [token] in Hr'. rewrite Hr'. vm_compute. reflexivity.
Defined.

(** C6 at a concrete run: the first endpoint accepts the login with an
    expired password; login raises without trying the second endpoint. *)
Lemma login_pwd_expired_raises_witness :
  fst (login_loop K0 net_pwd_expired txt "admin" "pw" sample_addresses
         init_state) = Err (ShareBackendException pwd_expired_msg) /\
  length (trace (snd (login_loop K0 net_pwd_expired txt "admin" "pw"
                        sample_addresses init_state))) = 2%nat.
Proof.
  pose proof (login_pwd_expired_raises K0 net_pwd_expired txt "admin" "pw"
                "https://a/" "dev1" ["https://b/"%string] init_state
                (snd (do_call K0 net_pwd_expired txt "xx/sessions" POST
                        (login_data "admin" "pw") 4
                        (mkSt (Some "https://a/"%string)
                              (Some (mkSession None)) [] 1)))
                (login_ok_env "dev1" "t1" 3)
                ltac:(vm_compute; reflexivity) eq_refl eq_refl eq_refl)
    as H.
  cbv zeta in H. destruct H as [Hl [_ Ht]].
  unfold sample_addresses. rewrite Hl.
  split; [vm_compute; reflexivity|].
  rewrite <- Hl, (Ht eq_refl). vm_compute. reflexivity.
Defined.

(** C7 at a concrete run: a fresh helper has no URL. *)
Lemma call_no_url_unauthorized_witness :
  truthy (url init_state) = false /\
  call_first K0 net_reject txt "/filesystem" GET [] 52 init_state =
    (Ok (None, unauthorized K0), init_state).
Proof.
  split; [reflexivity|].
  apply (call_no_url_unauthorized K0 net_reject txt no_base64 sample_addresses
           "admin" "pw" "/filesystem" GET [] 52 init_state eq_refl).
Defined.

(** C8 fails at a concrete run: a 300 response is not turned into an
    error envelope carrying 300; its body is returned as the result. *)
Lemma status_300_not_converted :
  fst (do_call K0 net_status_300 txt "/filesystem" GET [] 52 logged_in) =
    Ok ok_env /\ code ok_env <> 300.
Proof. split; [vm_compute; reflexivity | discriminate]. Qed.

(** The amended C8 at a concrete run: the array is unreachable. *)
Lemma do_call_converts_transport_failures_witness :
  fst (do_call K0 net_down txt "/filesystem" GET [] 52 logged_in) =
    Ok (connect_error K0).
Proof.
  destruct (do_call_converts_transport_failures K0 net_down txt no_base64
              sample_addresses "admin" "pw" "/filesystem" GET [] 52 logged_in
              "https://a/dev1" (mkSession (Some "t1"%string)) eq_refl eq_refl)
    as [H _].
  exact (H eq_refl).
Defined.

(** C10 at a concrete run: a 200 response whose body is not JSON. *)
Lemma bad_json_propagates_witness :
  fst (call K0 net_bad_json txt no_base64 sample_addresses "admin" "pw"
         "/filesystem" GET [] 52 logged_in) = Err JSONDecodeError.
Proof.
  refine (proj2 (bad_json_propagates K0 net_bad_json txt no_base64
                   sample_addresses "admin" "pw" "/filesystem" GET [] 52
                   logged_in "https://a/dev1" (mkSession (Some "t1"%string))
                   200 eq_refl _ eq_refl eq_refl _)).
  - discriminate.
  - lia.
Defined.

(** Under [net_reject] every login request, from any state set up for an
    endpoint, is answered with a non-zero code. *)
Lemma net_reject_login_fails (username password : string)
    (addrs : list string) :
  forall item s0, In item addrs -> url s0 = Some item ->
    session s0 = Some (mkSession None) ->
    exists r s1,
    do_call K0 net_reject txt "xx/sessions" POST
      (login_data username password) (LOGIN_SOCKET_TIMEOUT K0) s0
      = (Ok r, s1) /\ _error_code r <> 0.
Proof.
  intros item s0 _ Hu Hs. unfold RestHelper.do_call. rewrite Hu, Hs.
  eexists. eexists. split; [reflexivity|]. unfold _error_code. cbn.
  discriminate.
Qed.

(** C3 (as amended) at a concrete run: both endpoints reject the login;
    the session keeps the last endpoint as URL and has no token. *)
Lemma session_inv_failed_login_witness :
  exists s',
    login_loop K0 net_reject txt "admin" "pw" sample_addresses init_state =
      (Err (ShareBackendException all_fail_msg), s') /\
    url s' = Some "https://b/"%string /\ session_inv s' = false.
Proof.
  destruct (session_inv_failed_login K0 net_reject txt "admin" "pw"
              sample_addresses init_state) as [_ [_ H]].
  destruct (H ltac:(discriminate)
              (net_reject_login_fails "admin" "pw" sample_addresses))
    as (s' & Hl & Hu & _ & Hi).
  exists s'. split; [exact Hl|]. split; [exact Hu|exact Hi].
Defined.

(** C5 at a concrete run: both endpoints reject the login; one request per
    endpoint is sent and [login] raises "All url login fail.". *)
Lemma login_iterates_endpoints_witness :
  exists s',
    login_loop K0 net_reject txt "admin" "pw" sample_addresses init_state =
      (Err (ShareBackendException all_fail_msg), s') /\
    length (trace s') = 2%nat.
Proof.
  destruct (login_iterates_endpoints K0 net_reject txt "admin" "pw"
              "https://a/" ["https://b/"%string] sample_addresses init_state)
    as [_ H].
  destruct (H (net_reject_login_fails "admin" "pw" sample_addresses))
    as (s' & Hl & Ht).
  exists s'. split; [exact Hl|]. rewrite Ht. reflexivity.
Defined.

End Runs.

(** ** Runs of the resource operations *)

Section ResourceRuns.

Local Abbreviation K0 := sample_constants.
Local Abbreviation DK0 := sample_domain_constants.
Local Abbreviation txt := sample_error_text.
Local Abbreviation u1 := "https://a/dev1"%string.
Local Abbreviation ss1 := (mkSession (Some "t1"%string)).

Lemma logged_in_at : logged_at logged_in u1 ss1.
Proof. split; [reflexivity|split; [discriminate|reflexivity]]. Qed.

(** X1 at a concrete run: an answer with a resource code comes back from
    [call] as [do_call] returned it. *)
Lemma call_single_request_without_relogin_code_witness :
  call K0 (net_code 2004) txt no_base64 sample_addresses "admin" "pw"
    "/vlan/7" DELETE [] 52 logged_in =
  (Ok (mkEnv 2004 "" None),
   snd (do_call K0 (net_code 2004) txt "/vlan/7" DELETE [] 52 logged_in)).
Proof.
  apply (call_single_request_without_relogin_code K0 (net_code 2004) txt
           no_base64 sample_addresses "admin" "pw" "/vlan/7" DELETE [] 52
           logged_in _ (mkEnv 2004 "" None));
    [reflexivity | vm_compute; reflexivity | reflexivity].
Defined.

(** X2 at a concrete run: a re-login replaces token [t1] by [t2]; a second
    re-login with [t1] returns at once. *)
Lemma relogin_stale_token_no_second_login_witness :
  relogin K0 net_fresh_login txt no_base64 sample_addresses "admin" "pw"
    (Some "t1"%string)
    (snd (relogin K0 net_fresh_login txt no_base64 sample_addresses "admin"
            "pw" (Some "t1"%string) logged_in)) =
  (Ok true,
   snd (relogin K0 net_fresh_login txt no_base64 sample_addresses "admin"
          "pw" (Some "t1"%string) logged_in)).
Proof.
  apply (relogin_stale_token_no_second_login K0 net_fresh_login txt
           no_base64 sample_addresses "admin" "pw" (Some "t1"%string)
           logged_in).
  - vm_compute. reflexivity.
  - intros ss Hs. vm_compute in Hs. injection Hs as <-. discriminate.
Defined.

(** X3 at a concrete run: from a fresh helper, [call] logs in on endpoint
    [a] and then sends the request. *)
Lemma call_logs_in_lazily_witness :
  fst (call K0 net_fresh_login txt no_base64 sample_addresses "admin" "pw"
         "/vlan/7" DELETE [] 52 init_state) =
    Ok (login_ok_env "dev2" "t2" 1).
Proof.
  rewrite (call_logs_in_lazily K0 net_fresh_login txt no_base64
             sample_addresses "admin" "pw" "/vlan/7" DELETE [] 52 init_state
             (snd (login K0 net_fresh_login txt no_base64 sample_addresses
                     "admin" "pw" init_state))
             eq_refl eq_refl ltac:(vm_compute; reflexivity)).
  vm_compute. reflexivity.
Defined.

(** X5 at a concrete run: a share already gone counts as deleted. *)
Lemma delete_share_tolerates_missing_witness :
  fst (delete_share K0 DK0 (net_code 2001) txt no_base64 sample_addresses
         "admin" "pw" "share1" "NFS" (Some ""%string) logged_in) = DOk tt.
Proof.
  rewrite (delete_share_tolerates_missing K0 DK0 (net_code 2001) txt
             no_base64 sample_addresses "admin" "pw" "share1" "NFS"
             (Some ""%string) logged_in u1 ss1 200 (mkEnv 2001 "" None)
             (or_introl eq_refl) logged_in_at eq_refl eq_refl eq_refl).
  reflexivity.
Defined.

(** X6 at a concrete run: a filesystem already gone counts as deleted. *)
Lemma delete_filesystem_tolerates_missing_witness :
  fst (delete_filesystem K0 DK0 (net_code 2002) txt no_base64
         sample_addresses "admin" "pw" [("ID"%string, "5"%string)]
         logged_in) = DOk tt.
Proof.
  rewrite (delete_filesystem_tolerates_missing K0 DK0 (net_code 2002) txt
             no_base64 sample_addresses "admin" "pw"
             [("ID"%string, "5"%string)] logged_in u1 ss1 200
             (mkEnv 2002 "" None) logged_in_at eq_refl eq_refl eq_refl).
  reflexivity.
Defined.

(** X7 at a concrete run: a VLAN already gone counts as deleted. *)
Lemma id_deletes_tolerate_missing_witness :
  fst (delete_vlan K0 DK0 (net_code 2004) txt no_base64 sample_addresses
         "admin" "pw" "7" logged_in) = DOk tt.
Proof.
  pose proof (id_deletes_tolerate_missing K0 DK0 (net_code 2004) txt
                no_base64 sample_addresses "admin" "pw" "7" logged_in u1 ss1
                200 (mkEnv 2004 "" None) logged_in_at (fun _ => eq_refl)
                eq_refl eq_refl) as H.
  cbv zeta in H. destruct H as [_ [H _]]. rewrite H. reflexivity.
Defined.

(** X8 at a concrete run: the "share does not exist" code makes
    [remove_access] raise. *)
Lemma remove_access_requires_success_witness :
  fst (remove_access K0 (net_code 2001) txt no_base64 sample_addresses
         "admin" "pw" "9" "CIFS" None logged_in) =
    DErr (Backend (ShareBackendException "Delete access %s error.")).
Proof.
  rewrite (remove_access_requires_success K0 (net_code 2001) txt no_base64
             sample_addresses "admin" "pw" "9" "CIFS" None logged_in u1 ss1
             200 (mkEnv 2001 "" None) (or_intror eq_refl) logged_in_at
             eq_refl eq_refl eq_refl).
  reflexivity.
Defined.

(** X9 at a concrete run: a successful QoS delete. *)
Lemma delete_qos_requires_success_witness :
  fst (delete_qos K0 (net_code 0) txt no_base64 sample_addresses "admin" "pw"
         "3" logged_in) = DOk tt.
Proof.
  rewrite (delete_qos_requires_success K0 (net_code 0) txt no_base64
             sample_addresses "admin" "pw" "3" logged_in u1 ss1 200
             (mkEnv 0 "" None) logged_in_at eq_refl eq_refl eq_refl).
  reflexivity.
Defined.

(** X10 at a concrete run: a CIFS level change in vStore [v1]. *)
Lemma change_access_request_witness :
  map req_body
    (trace (snd (change_access K0 (net_code 0) txt no_base64
                   sample_addresses "admin" "pw" "9" "CIFS" "5"
                   (Some "v1"%string) logged_in))) =
  [Some [("PERMISSION"%string, "5"%string);
         ("vstoreId"%string, "v1"%string)]].
Proof.
  rewrite (change_access_request K0 (net_code 0) txt no_base64
             sample_addresses "admin" "pw" "9" "CIFS" "5" (Some "v1"%string)
             logged_in u1 ss1 200 (mkEnv 0 "" None) (or_intror eq_refl)
             logged_in_at eq_refl eq_refl eq_refl).
  reflexivity.
Defined.

(** X11 at a concrete run: with room for three nested calls, four DELETEs
    go out and the operation is still recursing. *)
Lemma delete_replication_pair_unbounded_retry_witness :
  fst (delete_replication_pair K0 DK0 (net_code 2007) txt no_base64
         sample_addresses "admin" "pw" 3 "11" false logged_in) =
    DErr OutOfFuel /\
  length (trace (snd (delete_replication_pair K0 DK0 (net_code 2007) txt
                        no_base64 sample_addresses "admin" "pw" 3 "11" false
                        logged_in))) = 4%nat.
Proof.
  rewrite (delete_replication_pair_unbounded_retry K0 DK0 (net_code 2007)
             txt no_base64 sample_addresses "admin" "pw" 3 "11" logged_in u1
             ss1 200 (mkEnv 2007 "" None) logged_in_at (fun _ _ => eq_refl)
             eq_refl eq_refl eq_refl).
  split; reflexivity.
Defined.

(** X12 at a concrete run: a broken link, then "pair does not exist" on the
    forced delete. *)
Lemma delete_replication_pair_forced_retry_witness :
  fst (delete_replication_pair K0 DK0 (net_link_then 2008) txt no_base64
         sample_addresses "admin" "pw" 1 "11" false logged_in) = DOk tt.
Proof.
  rewrite (delete_replication_pair_forced_retry K0 DK0 (net_link_then 2008)
             txt no_base64 sample_addresses "admin" "pw" 0 "11" logged_in u1
             ss1 200 200 (mkEnv 2007 "" None) (mkEnv 2008 "" None)
             logged_in_at eq_refl eq_refl eq_refl eq_refl eq_refl
             ltac:(discriminate) eq_refl eq_refl).
  reflexivity.
Defined.

(** X14 at a concrete run: two addresses sent as one JSON text. *)
Lemma set_dns_ip_address_request_witness :
  map req_body
    (trace (snd (set_dns_ip_address K0 (net_code 0) txt no_base64
                   sample_addresses "admin" "pw" sample_json_dumps
                   ["1.1.1.1"; "2.2.2.2"]%string logged_in))) =
  [Some [("ADDRESS"%string, "[1.1.1.1, 2.2.2.2]"%string)]].
Proof.
  rewrite (set_dns_ip_address_request K0 (net_code 0) txt no_base64
             sample_addresses "admin" "pw" sample_json_dumps
             ["1.1.1.1"; "2.2.2.2"]%string logged_in u1 ss1 200
             (mkEnv 0 "" None) ltac:(cbn; lia) logged_in_at eq_refl eq_refl
             eq_refl).
  reflexivity.
Defined.

End ResourceRuns.
